(** * eva.core.trainers.functional: evaluation sessions

    A shallow embedding of [src/eva/core/trainers/functional.py].

    The module is orchestration code: it clones a trainer and a model,
    drives the training framework through fit / validate / test / predict
    and feeds the scores to a session recorder.  The framework itself
    (Lightning's trainer, eva's [Trainer] methods, the model hooks and the
    [SessionRecorder]) is not part of the module; it is a parameter here,
    a record [Framework] of state transformers that may raise.

    Python objects live in a store and are named by their location, so that
    "the clone" and "the base object" are different things; every call the
    module makes into the framework is recorded, with its outcome, in a
    log.  The four functions of the module are programs of a state and
    exception monad over that store and log. *)

From Stdlib Require Import ZArith List Bool Lia.
Import ListNotations.

Set Implicit Arguments.

(** ** Results of calls *)

(** A Python call either returns a value or raises. *)
Inductive result (E A : Type) : Type :=
| Ok (a : A)
| Raise (e : E).

Arguments Ok {E A} a.
Arguments Raise {E A} e.

(** Object identities. *)
Definition loc := nat.

(** ** The training framework, as the module sees it

    Each method takes the framework's ambient state [Env] (file system,
    loggers, random state, devices) and the states of the objects it is
    called with, and gives their new states and a result.  State changes
    made before an exception is raised are kept.  A method reaches no other
    object of the store: what a trainer keeps of the model it was fitted on
    is part of the trainer's state, and a clone shares nothing with its
    original.  The three attributes the module reads ([default_log_dir],
    [checkpoint_type], [datasets.test]) are read off the object's state;
    reading them changes nothing and does not raise. *)
Record Framework : Type := {
  TrainerSt : Type;      (* state of an [eva_trainer.Trainer] *)
  ModelSt : Type;        (* state of a [modules.ModelModule] *)
  DataSt : Type;         (* state of a [datamodules.DataModule] *)
  RecorderSt : Type;     (* state of a [_recorder.SessionRecorder] *)
  Env : Type;
  Scores : Type;         (* [_EVALUATE_OUTPUT] *)
  Preds : Type;          (* what [trainer.predict] gives back *)
  Path : Type;
  Ckpt : Type;
  Dataset : Type;
  Exn : Type;
  (* attributes read by the module *)
  default_log_dir : TrainerSt -> Path;
  checkpoint_type : TrainerSt -> Ckpt;
  datasets_test : DataSt -> option Dataset;
  (* methods called by the module *)
  model_configure_model :
    Env -> ModelSt -> Env * ModelSt * result Exn unit;
  trainer_init_logger_run :
    Env -> TrainerSt -> option Z -> Env * TrainerSt * result Exn unit;
  trainer_finish_logger_run :
    Env -> TrainerSt -> option Z -> Env * TrainerSt * result Exn unit;
  trainer_fit :
    Env -> TrainerSt -> ModelSt -> DataSt ->
    Env * TrainerSt * ModelSt * DataSt * result Exn unit;
  trainer_validate :
    Env -> TrainerSt -> DataSt -> bool -> Ckpt ->
    Env * TrainerSt * DataSt * result Exn Scores;
  trainer_test :
    Env -> TrainerSt -> DataSt -> bool -> Ckpt ->
    Env * TrainerSt * DataSt * result Exn Scores;
  trainer_predict :
    Env -> TrainerSt -> ModelSt -> DataSt -> bool ->
    Env * TrainerSt * ModelSt * DataSt * result Exn Preds;
  recorder_init :
    Env -> Path -> bool -> Env * result Exn RecorderSt;
  recorder_update :
    Env -> RecorderSt -> Scores -> option Scores ->
    Env * RecorderSt * result Exn unit;
  recorder_save :
    Env -> RecorderSt -> Env * RecorderSt * result Exn unit
}.

(** Store update at one location. *)
Definition upd {A : Type} (f : loc -> A) (l : loc) (a : A) : loc -> A :=
  fun l' => if Nat.eqb l' l then a else f l'.

Section Functional.

Context {fw : Framework}.

Abbreviation res := (result (Exn fw)).

(** ** Calls, outcomes and the log *)

Inductive call : Type :=
| Clone (base_trainer base_model : loc)
| ConfigureModel (model : loc)
| InitLoggerRun (trainer : loc) (run_id : option Z)
| Fit (trainer model datamodule : loc)
| Validate (trainer datamodule : loc) (verbose : bool) (ckpt_path : Ckpt fw)
| Test (trainer datamodule : loc) (verbose : bool) (ckpt_path : Ckpt fw)
| FinishLoggerRun (trainer : loc) (run_id : option Z)
| Predict (trainer model datamodule : loc) (return_predictions : bool)
| NewSessionRecorder (output_dir : Path fw) (verbose : bool)
| RecorderUpdate (recorder : loc) (validation_scores : Scores fw)
                 (test_scores : option (Scores fw))
| RecorderSave (recorder : loc).

Inductive value : Type :=
| VNone
| VObjects (trainer model : loc)
| VRecorder (recorder : loc)
| VScores (s : Scores fw)
| VPreds (p : Preds fw).

Inductive outcome : Type :=
| Returned (v : value)
| Raised (e : Exn fw).

Record event : Type := Ev { ev_call : call; ev_outcome : outcome }.

(** ** The store *)

Record Heap : Type := {
  trainers : loc -> TrainerSt fw;
  models : loc -> ModelSt fw;
  datamodules : loc -> DataSt fw;
  recorders : loc -> RecorderSt fw;
  next_loc : loc;            (* first location not yet allocated *)
  env : Env fw
}.

Record World : Type := { heap : Heap; log : list event }.

(** ** The monad: state, exceptions, log *)

Definition M (A : Type) : Type := World -> World * res A.

Definition ret {A : Type} (a : A) : M A := fun w => (w, Ok a).

Definition bind {A B : Type} (c : M A) (k : A -> M B) : M B :=
  fun w =>
    match c w with
    | (w', Ok a) => k a w'
    | (w', Raise e) => (w', Raise e)
    end.

Notation "x <- c ;; k" := (bind c (fun x => k))
  (at level 61, c at next level, right associativity).
Notation "' pat <- c ;; k" := (bind c (fun x => match x with pat => k end))
  (at level 61, pat pattern, c at next level, right associativity).
Notation "c ;; k" := (bind c (fun _ => k))
  (at level 61, right associativity).

(** Reading an attribute: no call, no effect. *)
Definition read {A : Type} (f : Heap -> A) : M A :=
  fun w => (w, Ok (f (heap w))).

(** [for x in xs: body x] *)
Fixpoint for_each {A : Type} (xs : list A) (body : A -> M unit) : M unit :=
  match xs with
  | [] => ret tt
  | x :: xs' => body x ;; for_each xs' body
  end.

(** [range(n)]: empty when [n <= 0]. *)
Definition range (n : Z) : list Z := map Z.of_nat (seq 0 (Z.to_nat n)).

Definition outcome_of {A : Type} (to_value : A -> value) (r : res A) : outcome :=
  match r with
  | Ok a => Returned (to_value a)
  | Raise e => Raised e
  end.

(** A call into the framework: run it on the store, then log the call with
    its outcome. *)
Definition invoke {A : Type} (c : call) (to_value : A -> value)
    (step : Heap -> Heap * res A) : M A :=
  fun w =>
    let (h', r) := step (heap w) in
    ({| heap := h'; log := log w ++ [Ev c (outcome_of to_value r)] |}, r).

(** ** The calls the module makes *)

(** Modelled from the spec: [_utils.clone] is not among the sources; the
    spec has each run "use a fresh clone", made by "cloning trainer/model
    state so repeated runs do not interfere".  The clone of an object is a
    new object, at a location not in use, whose state is that of the
    original; the originals are left as they are. *)
Definition clone (base_trainer base_model : loc) : M (loc * loc) :=
  invoke (Clone base_trainer base_model)
    (fun tm => VObjects (fst tm) (snd tm))
    (fun h =>
       let trainer := next_loc h in
       let model := S (next_loc h) in
       ({| trainers := upd (trainers h) trainer (trainers h base_trainer);
           models := upd (models h) model (models h base_model);
           datamodules := datamodules h;
           recorders := recorders h;
           next_loc := S (S (next_loc h));
           env := env h |},
        Ok (trainer, model))).

(** [model.configure_model()] *)
Definition configure_model (model : loc) : M unit :=
  invoke (ConfigureModel model) (fun _ => VNone)
    (fun h =>
       let '(e, ms, r) := model_configure_model fw (env h) (models h model) in
       ({| trainers := trainers h;
           models := upd (models h) model ms;
           datamodules := datamodules h;
           recorders := recorders h;
           next_loc := next_loc h;
           env := e |}, r)).

(** [trainer.init_logger_run(run_id)] *)
Definition init_logger_run (trainer : loc) (run_id : option Z) : M unit :=
  invoke (InitLoggerRun trainer run_id) (fun _ => VNone)
    (fun h =>
       let '(e, ts, r) :=
         trainer_init_logger_run fw (env h) (trainers h trainer) run_id in
       ({| trainers := upd (trainers h) trainer ts;
           models := models h;
           datamodules := datamodules h;
           recorders := recorders h;
           next_loc := next_loc h;
           env := e |}, r)).

(** [trainer.finish_logger_run(run_id)] *)
Definition finish_logger_run (trainer : loc) (run_id : option Z) : M unit :=
  invoke (FinishLoggerRun trainer run_id) (fun _ => VNone)
    (fun h =>
       let '(e, ts, r) :=
         trainer_finish_logger_run fw (env h) (trainers h trainer) run_id in
       ({| trainers := upd (trainers h) trainer ts;
           models := models h;
           datamodules := datamodules h;
           recorders := recorders h;
           next_loc := next_loc h;
           env := e |}, r)).

(** [trainer.fit(model, datamodule=datamodule)] *)
Definition fit (trainer model datamodule : loc) : M unit :=
  invoke (Fit trainer model datamodule) (fun _ => VNone)
    (fun h =>
       let '(e, ts, ms, ds, r) :=
         trainer_fit fw (env h) (trainers h trainer) (models h model)
           (datamodules h datamodule) in
       ({| trainers := upd (trainers h) trainer ts;
           models := upd (models h) model ms;
           datamodules := upd (datamodules h) datamodule ds;
           recorders := recorders h;
           next_loc := next_loc h;
           env := e |}, r)).

(** [trainer.validate(datamodule=datamodule, verbose=verbose, ckpt_path=ckpt_path)] *)
Definition validate (trainer datamodule : loc) (verbose : bool)
    (ckpt_path : Ckpt fw) : M (Scores fw) :=
  invoke (Validate trainer datamodule verbose ckpt_path) (@VScores)
    (fun h =>
       let '(e, ts, ds, r) :=
         trainer_validate fw (env h) (trainers h trainer)
           (datamodules h datamodule) verbose ckpt_path in
       ({| trainers := upd (trainers h) trainer ts;
           models := models h;
           datamodules := upd (datamodules h) datamodule ds;
           recorders := recorders h;
           next_loc := next_loc h;
           env := e |}, r)).

(** [trainer.test(datamodule=datamodule, verbose=verbose, ckpt_path=ckpt_path)] *)
Definition test (trainer datamodule : loc) (verbose : bool)
    (ckpt_path : Ckpt fw) : M (Scores fw) :=
  invoke (Test trainer datamodule verbose ckpt_path) (@VScores)
    (fun h =>
       let '(e, ts, ds, r) :=
         trainer_test fw (env h) (trainers h trainer)
           (datamodules h datamodule) verbose ckpt_path in
       ({| trainers := upd (trainers h) trainer ts;
           models := models h;
           datamodules := upd (datamodules h) datamodule ds;
           recorders := recorders h;
           next_loc := next_loc h;
           env := e |}, r)).

(** [trainer.predict(model=model, datamodule=datamodule,
    return_predictions=return_predictions)] *)
Definition predict (trainer model datamodule : loc)
    (return_predictions : bool) : M (Preds fw) :=
  invoke (Predict trainer model datamodule return_predictions) (@VPreds)
    (fun h =>
       let '(e, ts, ms, ds, r) :=
         trainer_predict fw (env h) (trainers h trainer) (models h model)
           (datamodules h datamodule) return_predictions in
       ({| trainers := upd (trainers h) trainer ts;
           models := upd (models h) model ms;
           datamodules := upd (datamodules h) datamodule ds;
           recorders := recorders h;
           next_loc := next_loc h;
           env := e |}, r)).

(** [_recorder.SessionRecorder(output_dir=output_dir, verbose=verbose)]:
    a new object when the constructor returns. *)
Definition SessionRecorder (output_dir : Path fw) (verbose : bool) : M loc :=
  invoke (NewSessionRecorder output_dir verbose) VRecorder
    (fun h =>
       match recorder_init fw (env h) output_dir verbose with
       | (e, Ok rs) =>
           ({| trainers := trainers h;
               models := models h;
               datamodules := datamodules h;
               recorders := upd (recorders h) (next_loc h) rs;
               next_loc := S (next_loc h);
               env := e |}, Ok (next_loc h))
       | (e, Raise x) =>
           ({| trainers := trainers h;
               models := models h;
               datamodules := datamodules h;
               recorders := recorders h;
               next_loc := next_loc h;
               env := e |}, Raise x)
       end).

(** [recorder.update(validation_scores, test_scores)] *)
Definition update (recorder : loc) (validation_scores : Scores fw)
    (test_scores : option (Scores fw)) : M unit :=
  invoke (RecorderUpdate recorder validation_scores test_scores)
    (fun _ => VNone)
    (fun h =>
       let '(e, rs, r) :=
         recorder_update fw (env h) (recorders h recorder)
           validation_scores test_scores in
       ({| trainers := trainers h;
           models := models h;
           datamodules := datamodules h;
           recorders := upd (recorders h) recorder rs;
           next_loc := next_loc h;
           env := e |}, r)).

(** [recorder.save()] *)
Definition save (recorder : loc) : M unit :=
  invoke (RecorderSave recorder) (fun _ => VNone)
    (fun h =>
       let '(e, rs, r) := recorder_save fw (env h) (recorders h recorder) in
       ({| trainers := trainers h;
           models := models h;
           datamodules := datamodules h;
           recorders := upd (recorders h) recorder rs;
           next_loc := next_loc h;
           env := e |}, r)).

(** ** The module *)

(** [fit_and_validate(trainer, model, datamodule, verbose)] *)
Definition fit_and_validate (trainer model datamodule : loc) (verbose : bool)
    : M (Scores fw * option (Scores fw)) :=
  fit trainer model datamodule ;;
  ckpt_path <- read (fun h => checkpoint_type fw (trainers h trainer)) ;;
  validation_scores <- validate trainer datamodule verbose ckpt_path ;;
  dataset <- read (fun h => datasets_test fw (datamodules h datamodule)) ;;
  test_scores <-
    match dataset with
    | None => ret None
    | Some _ =>
        ckpt_path <- read (fun h => checkpoint_type fw (trainers h trainer)) ;;
        scores <- test trainer datamodule verbose ckpt_path ;;
        ret (Some scores)
    end ;;
  ret (validation_scores, test_scores).

(** [run_evaluation(base_trainer, base_model, datamodule, run_id=run_id,
    verbose=verbose)] *)
Definition run_evaluation (base_trainer base_model datamodule : loc)
    (run_id : option Z) (verbose : bool)
    : M (Scores fw * option (Scores fw)) :=
  '(trainer, model) <- clone base_trainer base_model ;;
  configure_model model ;;
  init_logger_run trainer run_id ;;
  results <- fit_and_validate trainer model datamodule verbose ;;
  finish_logger_run trainer run_id ;;
  ret results.

(** [run_evaluation_session(base_trainer, base_model, datamodule,
    n_runs=n_runs, verbose=verbose)] *)
Definition run_evaluation_session (base_trainer base_model datamodule : loc)
    (n_runs : Z) (verbose : bool) : M unit :=
  output_dir <- read (fun h => default_log_dir fw (trainers h base_trainer)) ;;
  recorder <- SessionRecorder output_dir verbose ;;
  for_each (range n_runs) (fun run_index =>
    '(validation_scores, test_scores) <-
      run_evaluation base_trainer base_model datamodule
        (Some run_index) (negb verbose) ;;
    update recorder validation_scores test_scores) ;;
  save recorder.

(** [infer_model(base_trainer, base_model, datamodule,
    return_predictions=return_predictions)] *)
Definition infer_model (base_trainer base_model datamodule : loc)
    (return_predictions : bool) : M (Preds fw) :=
  '(trainer, model) <- clone base_trainer base_model ;;
  predict trainer model datamodule return_predictions.

(** ** What the log of a call looks like

    The events each function of the module can add to the log, with the
    result it gives then.  A call that raises is the last event. *)

Notation "c ~> v" := (Ev c (Returned v)) (at level 70, no associativity).
Notation "c ~>! e" := (Ev c (Raised e)) (at level 70, no associativity).

(** The test phase of a run whose test scores are [test_scores]. *)
Definition test_events (trainer datamodule : loc) (verbose : bool)
    (ckpt_path : Ckpt fw) (test_scores : option (Scores fw)) : list event :=
  match test_scores with
  | None => []
  | Some scores => [Test trainer datamodule verbose ckpt_path ~> VScores scores]
  end.

(** The events of a [fit_and_validate] that returns
    [(validation_scores, test_scores)]. *)
Definition fit_and_validate_events (trainer model datamodule : loc)
    (verbose : bool) (ckpt_validate ckpt_test : Ckpt fw)
    (validation_scores : Scores fw) (test_scores : option (Scores fw))
    : list event :=
  [Fit trainer model datamodule ~> VNone;
   Validate trainer datamodule verbose ckpt_validate ~> VScores validation_scores]
  ++ test_events trainer datamodule verbose ckpt_test test_scores.

Inductive fit_and_validate_trace (trainer model datamodule : loc)
    (verbose : bool)
    : res (Scores fw * option (Scores fw)) -> list event -> Prop :=
| fv_fit_raises e :
    fit_and_validate_trace trainer model datamodule verbose (Raise e)
      [Fit trainer model datamodule ~>! e]
| fv_validate_raises ckpt e :
    fit_and_validate_trace trainer model datamodule verbose (Raise e)
      [Fit trainer model datamodule ~> VNone;
       Validate trainer datamodule verbose ckpt ~>! e]
| fv_test_raises ckpt validation_scores ckpt' e :
    fit_and_validate_trace trainer model datamodule verbose (Raise e)
      [Fit trainer model datamodule ~> VNone;
       Validate trainer datamodule verbose ckpt ~> VScores validation_scores;
       Test trainer datamodule verbose ckpt' ~>! e]
| fv_returns ckpt ckpt' validation_scores test_scores :
    fit_and_validate_trace trainer model datamodule verbose
      (Ok (validation_scores, test_scores))
      (fit_and_validate_events trainer model datamodule verbose ckpt ckpt'
         validation_scores test_scores).

(** What one successful run leaves behind: the clones it worked on, the
    checkpoints it evaluated and the scores it got. *)
Record run_record : Type := {
  run_trainer : loc;
  run_model : loc;
  run_ckpt_validate : Ckpt fw;
  run_ckpt_test : Ckpt fw;
  run_validation_scores : Scores fw;
  run_test_scores : option (Scores fw)
}.

(** The first three events of every run that gets as far as fitting. *)
Definition run_prologue (base_trainer base_model : loc) (run_id : option Z)
    (trainer model : loc) : list event :=
  [Clone base_trainer base_model ~> VObjects trainer model;
   ConfigureModel model ~> VNone;
   InitLoggerRun trainer run_id ~> VNone].

(** The events of a [run_evaluation] that returns. *)
Definition run_events (base_trainer base_model datamodule : loc)
    (run_id : option Z) (verbose : bool) (run : run_record) : list event :=
  run_prologue base_trainer base_model run_id (run_trainer run) (run_model run)
  ++ fit_and_validate_events (run_trainer run) (run_model run) datamodule
       verbose (run_ckpt_validate run) (run_ckpt_test run)
       (run_validation_scores run) (run_test_scores run)
  ++ [FinishLoggerRun (run_trainer run) run_id ~> VNone].

Inductive run_evaluation_trace (base_trainer base_model datamodule : loc)
    (run_id : option Z) (verbose : bool)
    : res (Scores fw * option (Scores fw)) -> list event -> Prop :=
| run_configure_raises trainer model e :
    run_evaluation_trace base_trainer base_model datamodule run_id verbose
      (Raise e)
      [Clone base_trainer base_model ~> VObjects trainer model;
       ConfigureModel model ~>! e]
| run_init_raises trainer model e :
    run_evaluation_trace base_trainer base_model datamodule run_id verbose
      (Raise e)
      [Clone base_trainer base_model ~> VObjects trainer model;
       ConfigureModel model ~> VNone;
       InitLoggerRun trainer run_id ~>! e]
| run_fit_and_validate_raises trainer model e evs :
    fit_and_validate_trace trainer model datamodule verbose (Raise e) evs ->
    run_evaluation_trace base_trainer base_model datamodule run_id verbose
      (Raise e)
      (run_prologue base_trainer base_model run_id trainer model ++ evs)
| run_finish_raises trainer model ckpt ckpt' validation_scores test_scores e :
    run_evaluation_trace base_trainer base_model datamodule run_id verbose
      (Raise e)
      (run_prologue base_trainer base_model run_id trainer model
       ++ fit_and_validate_events trainer model datamodule verbose ckpt ckpt'
            validation_scores test_scores
       ++ [FinishLoggerRun trainer run_id ~>! e])
| run_returns run :
    run_evaluation_trace base_trainer base_model datamodule run_id verbose
      (Ok (run_validation_scores run, run_test_scores run))
      (run_events base_trainer base_model datamodule run_id verbose run).

(** A recorded run: the run, then the one [recorder.update] with its
    scores. *)
Definition recorded_run (base_trainer base_model datamodule : loc)
    (verbose : bool) (recorder : loc) (run_index : Z) (run : run_record)
    : list event :=
  run_events base_trainer base_model datamodule (Some run_index) verbose run
  ++ [RecorderUpdate recorder (run_validation_scores run) (run_test_scores run)
        ~> VNone].

(** Runs recorded one after the other, with the given indices. *)
Fixpoint recorded_runs (base_trainer base_model datamodule : loc)
    (verbose : bool) (recorder : loc) (run_indices : list Z)
    (runs : list run_record) : list event :=
  match run_indices, runs with
  | run_index :: run_indices', run :: runs' =>
      recorded_run base_trainer base_model datamodule verbose recorder
        run_index run
      ++ recorded_runs base_trainer base_model datamodule verbose recorder
           run_indices' runs'
  | _, _ => []
  end.

(** The loop of [run_evaluation_session] over the indices that are left. *)
Inductive loop_trace (base_trainer base_model datamodule : loc)
    (verbose : bool) (recorder : loc)
    : list Z -> res unit -> list event -> Prop :=
| loop_done :
    loop_trace base_trainer base_model datamodule verbose recorder
      [] (Ok tt) []
| loop_run_raises run_index rest e evs :
    run_evaluation_trace base_trainer base_model datamodule
      (Some run_index) verbose (Raise e) evs ->
    loop_trace base_trainer base_model datamodule verbose recorder
      (run_index :: rest) (Raise e) evs
| loop_update_raises run_index rest run e :
    loop_trace base_trainer base_model datamodule verbose recorder
      (run_index :: rest) (Raise e)
      (run_events base_trainer base_model datamodule (Some run_index) verbose
         run
       ++ [RecorderUpdate recorder (run_validation_scores run)
             (run_test_scores run) ~>! e])
| loop_next run_index rest run r evs :
    loop_trace base_trainer base_model datamodule verbose recorder rest r evs ->
    loop_trace base_trainer base_model datamodule verbose recorder
      (run_index :: rest) r
      (recorded_run base_trainer base_model datamodule verbose recorder
         run_index run ++ evs).

Inductive session_trace (base_trainer base_model datamodule : loc)
    (output_dir : Path fw) (n_runs : Z) (verbose : bool)
    : res unit -> list event -> Prop :=
| session_recorder_raises e :
    session_trace base_trainer base_model datamodule output_dir n_runs verbose
      (Raise e) [NewSessionRecorder output_dir verbose ~>! e]
| session_loop_raises recorder e evs :
    loop_trace base_trainer base_model datamodule (negb verbose) recorder
      (range n_runs) (Raise e) evs ->
    session_trace base_trainer base_model datamodule output_dir n_runs verbose
      (Raise e)
      ((NewSessionRecorder output_dir verbose ~> VRecorder recorder) :: evs)
| session_saves recorder evs r :
    loop_trace base_trainer base_model datamodule (negb verbose) recorder
      (range n_runs) (Ok tt) evs ->
    session_trace base_trainer base_model datamodule output_dir n_runs verbose
      r
      ((NewSessionRecorder output_dir verbose ~> VRecorder recorder) :: evs
       ++ [Ev (RecorderSave recorder) (outcome_of (fun _ => VNone) r)]).

(** The events of an [infer_model]. *)
Inductive infer_model_trace (base_trainer base_model datamodule : loc)
    (return_predictions : bool) : res (Preds fw) -> list event -> Prop :=
| infer_predicts trainer model r :
    infer_model_trace base_trainer base_model datamodule return_predictions r
      [Clone base_trainer base_model ~> VObjects trainer model;
       Ev (Predict trainer model datamodule return_predictions)
          (outcome_of (@VPreds) r)].

(** ** Vocabulary for the properties *)

(** The call returned. *)
Definition returned (ev : event) : Prop :=
  exists v, ev_outcome ev = Returned v.

(** The log [evs] of a call ending in [r] shows the exception [r] carries:
    when [r] is a value every logged call returned, and when [r] raises [e]
    the last logged call raised this very [e] and every call before it
    returned. *)
Definition propagates {A : Type} (r : res A) (evs : list event) : Prop :=
  match r with
  | Ok _ => Forall returned evs
  | Raise e =>
      exists evs0 c, evs = evs0 ++ [c ~>! e] /\ Forall returned evs0
  end.

(** The trainer object a framework method is called on. *)
Definition trainer_used (c : call) : option loc :=
  match c with
  | InitLoggerRun trainer _ | FinishLoggerRun trainer _
  | Fit trainer _ _ | Validate trainer _ _ _ | Test trainer _ _ _
  | Predict trainer _ _ _ => Some trainer
  | _ => None
  end.

(** The model object a framework method is called on or with. *)
Definition model_used (c : call) : option loc :=
  match c with
  | ConfigureModel model | Fit _ model _ | Predict _ model _ _ => Some model
  | _ => None
  end.

(** Every framework method logged in [evs] is called on objects no older
    than [first_new]: objects allocated since. *)
Definition on_new_objects (first_new : loc) (evs : list event) : Prop :=
  forall ev, In ev evs ->
    (forall trainer, trainer_used (ev_call ev) = Some trainer ->
       first_new <= trainer) /\
    (forall model, model_used (ev_call ev) = Some model ->
       first_new <= model).

(** Every framework method logged in [evs] is called on the objects a
    [clone] of the base objects, logged in [evs] too, has returned. *)
Definition on_clones (base_trainer base_model : loc) (evs : list event)
    : Prop :=
  forall ev, In ev evs ->
    (forall trainer, trainer_used (ev_call ev) = Some trainer ->
       exists model,
         In (Clone base_trainer base_model ~> VObjects trainer model) evs) /\
    (forall model, model_used (ev_call ev) = Some model ->
       exists trainer,
         In (Clone base_trainer base_model ~> VObjects trainer model) evs).

(** The calls of [evs] are made on [trainer] and [model] only. *)
Definition only_on (trainer model : loc) (evs : list event) : Prop :=
  Forall (fun ev =>
            (forall t, trainer_used (ev_call ev) = Some t -> t = trainer) /\
            (forall m, model_used (ev_call ev) = Some m -> m = model)) evs.

(** The base objects are in the same state in [h'] as in [h]. *)
Definition base_unchanged (base_trainer base_model : loc) (h h' : Heap)
    : Prop :=
  trainers h' base_trainer = trainers h base_trainer /\
  models h' base_model = models h base_model.

(** From [h] to [h'] no object was freed, and the trainers and models
    older than [first_new] are in the same state. *)
Definition old_unchanged (first_new : loc) (h h' : Heap) : Prop :=
  next_loc h <= next_loc h' /\
  (forall l, l < first_new -> trainers h' l = trainers h l) /\
  (forall l, l < first_new -> models h' l = models h l).

(** [datamodule.datasets.test is not None] *)
Definition has_test (d : DataSt fw) : bool :=
  match datasets_test fw d with
  | None => false
  | Some _ => true
  end.

(** The framework's [fit] and [validate] do not add a test set to a
    datamodule, nor take it away. *)
Definition keeps_test_set : Prop :=
  (forall e t m d,
     let '(_, _, _, d', _) := trainer_fit fw e t m d in
     has_test d' = has_test d) /\
  (forall e t d verbose ckpt,
     let '(_, _, d', _) := trainer_validate fw e t d verbose ckpt in
     has_test d' = has_test d).

(** The call is a [trainer.test]. *)
Definition is_test (c : call) : bool :=
  match c with
  | Test _ _ _ _ => true
  | _ => false
  end.

(** The [verbose] flag the session recorder is made with. *)
Definition session_verbose (c : call) : option bool :=
  match c with
  | NewSessionRecorder _ verbose => Some verbose
  | _ => None
  end.

(** The [verbose] flag of an evaluation inside a run; [run_evaluation] and
    [fit_and_validate] hand theirs on to [trainer.validate] and
    [trainer.test] and use it for nothing else. *)
Definition run_verbose (c : call) : option bool :=
  match c with
  | Validate _ _ verbose _ | Test _ _ verbose _ => Some verbose
  | _ => None
  end.

(** The flags of the calls in a log: [session] for the recorder, [per_run]
    for the evaluations. *)
Definition verbosity (session per_run : bool) (evs : list event) : Prop :=
  forall ev, In ev evs ->
    (forall flag, session_verbose (ev_call ev) = Some flag -> flag = session) /\
    (forall flag, run_verbose (ev_call ev) = Some flag -> flag = per_run).

(** The phases of a run and of a session. *)
Inductive phase : Type :=
| PClone | PConfigure | PInitLogger | PFit | PValidate | PTest
| PFinishLogger | PPredict | PNewRecorder | PRecord | PSave.

Definition phase_of (c : call) : phase :=
  match c with
  | Clone _ _ => PClone
  | ConfigureModel _ => PConfigure
  | InitLoggerRun _ _ => PInitLogger
  | Fit _ _ _ => PFit
  | Validate _ _ _ _ => PValidate
  | Test _ _ _ _ => PTest
  | FinishLoggerRun _ _ => PFinishLogger
  | Predict _ _ _ _ => PPredict
  | NewSessionRecorder _ _ => PNewRecorder
  | RecorderUpdate _ _ _ => PRecord
  | RecorderSave _ => PSave
  end.

Definition phases (evs : list event) : list phase :=
  map (fun ev => phase_of (ev_call ev)) evs.

(** Whether the run was evaluated on a test set. *)
Definition tested (test_scores : option (Scores fw)) : bool :=
  match test_scores with
  | None => false
  | Some _ => true
  end.

(** The phases of a run with a test set, and of one without. *)
Definition run_phases (with_test : bool) : list phase :=
  [PClone; PConfigure; PInitLogger; PFit; PValidate]
  ++ (if with_test then [PTest] else [])
  ++ [PFinishLogger].

(** ** Vocabulary for the further properties *)

(** The datamodule object a framework method is called with. *)
Definition datamodule_used (c : call) : option loc :=
  match c with
  | Fit _ _ datamodule | Validate _ datamodule _ _ | Test _ datamodule _ _
  | Predict _ _ datamodule _ => Some datamodule
  | _ => None
  end.

(** The calls of [evs] that take a datamodule take [datamodule]. *)
Definition on_datamodule (datamodule : loc) (evs : list event) : Prop :=
  forall ev, In ev evs ->
    forall d, datamodule_used (ev_call ev) = Some d -> d = datamodule.

(** The number of runs begun in a log: its calls of [clone]. *)
Definition runs_begun (evs : list event) : nat :=
  length (filter (fun ev => match ev_call ev with
                            | Clone _ _ => true
                            | _ => false
                            end) evs).

(** From [h] to [h'] nothing was allocated and no trainer but [trainer] and
    no model but [model] changed state. *)
Definition in_place (trainer model : loc) (h h' : Heap) : Prop :=
  next_loc h' = next_loc h /\
  (forall l, l <> trainer -> trainers h' l = trainers h l) /\
  (forall l, l <> model -> models h' l = models h l).

(** [fit_and_validate] on the states of its three objects: what it does to
    the ambient state, the trainer, the model and the datamodule, and its
    result. *)
Definition fit_and_validate_states (verbose : bool) (e : Env fw)
    (ts : TrainerSt fw) (ms : ModelSt fw) (ds : DataSt fw)
    : Env fw * TrainerSt fw * ModelSt fw * DataSt fw
      * res (Scores fw * option (Scores fw)) :=
  let '(e1, ts1, ms1, ds1, r1) := trainer_fit fw e ts ms ds in
  match r1 with
  | Raise x => (e1, ts1, ms1, ds1, Raise x)
  | Ok _ =>
      let '(e2, ts2, ds2, r2) :=
        trainer_validate fw e1 ts1 ds1 verbose (checkpoint_type fw ts1) in
      match r2 with
      | Raise x => (e2, ts2, ms1, ds2, Raise x)
      | Ok validation_scores =>
          match datasets_test fw ds2 with
          | None => (e2, ts2, ms1, ds2, Ok (validation_scores, None))
          | Some _ =>
              let '(e3, ts3, ds3, r3) :=
                trainer_test fw e2 ts2 ds2 verbose (checkpoint_type fw ts2) in
              match r3 with
              | Raise x => (e3, ts3, ms1, ds3, Raise x)
              | Ok scores =>
                  (e3, ts3, ms1, ds3, Ok (validation_scores, Some scores))
              end
          end
      end
  end.

(** [run_evaluation] on the states of the base trainer, the base model and
    the datamodule: what it does to the ambient state and the datamodule,
    and its result. *)
Definition run_evaluation_states (run_id : option Z) (verbose : bool)
    (e : Env fw) (ts : TrainerSt fw) (ms : ModelSt fw) (ds : DataSt fw)
    : Env fw * DataSt fw * res (Scores fw * option (Scores fw)) :=
  let '(e1, ms1, r1) := model_configure_model fw e ms in
  match r1 with
  | Raise x => (e1, ds, Raise x)
  | Ok _ =>
      let '(e2, ts2, r2) := trainer_init_logger_run fw e1 ts run_id in
      match r2 with
      | Raise x => (e2, ds, Raise x)
      | Ok _ =>
          let '(e3, ts3, ms3, ds3, r3) :=
            fit_and_validate_states verbose e2 ts2 ms1 ds in
          match r3 with
          | Raise x => (e3, ds3, Raise x)
          | Ok results =>
              let '(e4, ts4, r4) :=
                trainer_finish_logger_run fw e3 ts3 run_id in
              match r4 with
              | Raise x => (e4, ds3, Raise x)
              | Ok _ => (e4, ds3, Ok results)
              end
          end
      end
  end.

(** The run ids the logger runs of a log were opened with, in order. *)
Definition run_ids (evs : list event) : list (option Z) :=
  flat_map (fun ev => match ev_call ev with
                      | InitLoggerRun _ run_id => [run_id]
                      | _ => []
                      end) evs.

(** The loop of a session on states: every run starts from the states
    [ts] and [ms] of the base trainer and the base model; the ambient state,
    the datamodule and the recorder go from one run to the next. *)
Fixpoint runs_states (run_indices : list Z) (verbose : bool)
    (ts : TrainerSt fw) (ms : ModelSt fw) (e : Env fw) (ds : DataSt fw)
    (rs : RecorderSt fw)
    : Env fw * DataSt fw * RecorderSt fw * res unit :=
  match run_indices with
  | [] => (e, ds, rs, Ok tt)
  | run_index :: run_indices' =>
      let '(e1, ds1, r1) :=
        run_evaluation_states (Some run_index) verbose e ts ms ds in
      match r1 with
      | Raise x => (e1, ds1, rs, Raise x)
      | Ok (validation_scores, test_scores) =>
          let '(e2, rs2, r2) :=
            recorder_update fw e1 rs validation_scores test_scores in
          match r2 with
          | Raise x => (e2, ds1, rs2, Raise x)
          | Ok _ => runs_states run_indices' verbose ts ms e2 ds1 rs2
          end
      end
  end.

(** [run_evaluation_session] on the states of the base trainer, the base
    model and the datamodule. *)
Definition run_evaluation_session_states (n_runs : Z) (verbose : bool)
    (e : Env fw) (ts : TrainerSt fw) (ms : ModelSt fw) (ds : DataSt fw)
    : Env fw * DataSt fw * res unit :=
  let '(e0, r0) := recorder_init fw e (default_log_dir fw ts) verbose in
  match r0 with
  | Raise x => (e0, ds, Raise x)
  | Ok rs =>
      let '(e1, ds1, rs1, r1) :=
        runs_states (range n_runs) (negb verbose) ts ms e0 ds rs in
      match r1 with
      | Raise x => (e1, ds1, Raise x)
      | Ok _ =>
          let '(e2, _, r2) := recorder_save fw e1 rs1 in
          (e2, ds1, r2)
      end
  end.

(** ** A program logic for [M]

    [wp c w Q]: run from [w], the program [c] adds the events [evs] to the
    end of the log and stops in a world [w'] with a result [r] such that
    [Q evs w' r].  [M] is a type of total functions, so every program
    stops; [wp] describes the one run [c] has from [w]. *)
Definition wp {A : Type} (c : M A) (w : World)
    (Q : list event -> World -> res A -> Prop) : Prop :=
  exists evs, log (fst (c w)) = log w ++ evs /\ Q evs (fst (c w)) (snd (c w)).

End Functional.

Arguments Heap : clear implicits.
Arguments World : clear implicits.
Arguments M : clear implicits.
Arguments call : clear implicits.
Arguments value : clear implicits.
Arguments outcome : clear implicits.
Arguments event : clear implicits.
Arguments run_record : clear implicits.
Arguments keeps_test_set : clear implicits.

(* With the framework known from the context, the arguments of a call are
   read in its types. *)
Arguments Validate {fw} & trainer datamodule verbose ckpt_path.
Arguments Test {fw} & trainer datamodule verbose ckpt_path.
Arguments NewSessionRecorder {fw} & output_dir verbose.
Arguments RecorderUpdate {fw} & recorder validation_scores test_scores.
Arguments VScores {fw} & s.
Arguments VPreds {fw} & p.
Arguments Returned {fw} & v.
Arguments Raised {fw} & e.
Arguments Ev {fw} & ev_call ev_outcome.

Notation "x <- c ;; k" := (bind c (fun x => k))
  (at level 61, c at next level, right associativity).
Notation "c ;; k" := (bind c (fun _ => k))
  (at level 61, right associativity).
Notation "c ~> v" := (Ev c (Returned v)) (at level 70, no associativity).
Notation "c ~>! e" := (Ev c (Raised e)) (at level 70, no associativity).

(** ** A small framework to run the module on

    Trainer and model states count the calls made on them, a datamodule is
    its optional test set, scores are numbers.  [trainer.fit] raises on a
    model whose state is 100 or more, and [recorder.update] on validation
    scores of 1000 or more; nothing else raises. *)
Module Toy.

Definition framework : Framework := {|
  TrainerSt := nat;
  ModelSt := nat;
  DataSt := option unit;
  RecorderSt := list (nat * option nat);
  Env := nat;
  Scores := nat;
  Preds := nat;
  Path := nat;
  Ckpt := nat;
  Dataset := unit;
  Exn := nat;
  default_log_dir := fun t => t;
  checkpoint_type := fun t => t;
  datasets_test := fun d => d;
  model_configure_model := fun e m => (S e, S m, Ok tt);
  trainer_init_logger_run := fun e t _ => (S e, S t, Ok tt);
  trainer_finish_logger_run := fun e t _ => (S e, S t, Ok tt);
  trainer_fit := fun e t m d =>
    (S e, S t, S m, d, if Nat.leb 100 m then Raise 7 else Ok tt);
  trainer_validate := fun e t d _ _ => (S e, S t, d, Ok (10 * t));
  trainer_test := fun e t d _ _ => (S e, S t, d, Ok (20 * t));
  trainer_predict := fun e t m d b =>
    (S e, S t, S m, d, Ok (if b then m else 0));
  recorder_init := fun e _ _ => (S e, Ok []);
  recorder_update := fun e r v t =>
    (S e, r ++ [(v, t)], if Nat.leb 1000 v then Raise 9 else Ok tt);
  recorder_save := fun e r => (S e, r, Ok tt)
|}.

(** A store with a base trainer at 0, a base model at 1 whose state is
    [model_state], and a datamodule at 2 with test set [test_set]. *)
Definition store (model_state : nat) (test_set : option unit)
    : Heap framework :=
  @Build_Heap framework
    (fun _ => 5) (fun _ => model_state) (fun _ => test_set) (fun _ => [])
    3 0.

Definition world (model_state : nat) (test_set : option unit)
    : World framework :=
  @Build_World framework (store model_state test_set) [].

(** The same objects in a store where more has been allocated: the next
    free location is [next]. *)
Definition world_at (next : loc) (model_state : nat) (test_set : option unit)
    : World framework :=
  @Build_World framework
    (@Build_Heap framework
       (fun _ => 5) (fun _ => model_state) (fun _ => test_set) (fun _ => [])
       next 0)
    [].

End Toy.

Section Properties.

Context {fw : Framework}.

Abbreviation res := (result (Exn fw)).

Implicit Types (w : World fw) (h : Heap fw) (evs : list (event fw)).
Implicit Types (ev : event fw) (ckpt : Ckpt fw) (run : run_record fw).
Implicit Types (validation_scores : Scores fw).
Implicit Types (test_scores : option (Scores fw)).
Implicit Types (trainer model datamodule recorder : loc).
Implicit Types (base_trainer base_model : loc) (verbose : bool).
Implicit Types (run_id : option Z) (run_index n_runs : Z).

Create HintDb trace.

(** ** Rules of the program logic *)

Lemma wp_ret {A : Type} (a : A) w
    (Q : list (event fw) -> World fw -> res A -> Prop) :
  Q [] w (Ok a) -> wp (ret a) w Q.
Proof.
  intros HQ. exists []. simpl. rewrite app_nil_r. auto.
Qed.

Lemma wp_read {A : Type} (f : Heap fw -> A) w
    (Q : list (event fw) -> World fw -> res A -> Prop) :
  Q [] w (Ok (f (heap w))) -> wp (read f) w Q.
Proof.
  intros HQ. exists []. simpl. rewrite app_nil_r. auto.
Qed.

Lemma wp_bind {A B : Type} (c : M fw A) (k : A -> M fw B) w
    (Q : list (event fw) -> World fw -> res B -> Prop) :
  wp c w (fun evs1 w1 r1 =>
            match r1 with
            | Ok a => wp (k a) w1 (fun evs2 w2 r2 => Q (evs1 ++ evs2) w2 r2)
            | Raise e => Q evs1 w1 (Raise e)
            end) ->
  wp (bind c k) w Q.
Proof.
  unfold wp, bind. intros (evs1 & Hlog1 & H).
  destruct (c w) as [w1 [a | e]]; simpl in *.
  - destruct H as (evs2 & Hlog2 & H). exists (evs1 ++ evs2).
    rewrite Hlog2, Hlog1, app_assoc. auto.
  - exists evs1. auto.
Qed.

Lemma wp_invoke {A : Type} (c : call fw) (to_value : A -> value fw)
    (step : Heap fw -> Heap fw * res A) w
    (Q : list (event fw) -> World fw -> res A -> Prop) :
  (forall h' r, step (heap w) = (h', r) ->
     Q [Ev c (outcome_of to_value r)]
       {| heap := h'; log := log w ++ [Ev c (outcome_of to_value r)] |} r) ->
  wp (invoke c to_value step) w Q.
Proof.
  intros H. unfold wp, invoke.
  destruct (step (heap w)) as [h' r] eqn:E. simpl. eauto.
Qed.

Lemma wp_weaken {A : Type} (c : M fw A) w
    (Q Q' : list (event fw) -> World fw -> res A -> Prop) :
  wp c w Q -> (forall evs w' r, Q evs w' r -> Q' evs w' r) -> wp c w Q'.
Proof.
  intros (evs & Hlog & H) HQ. exists evs. auto.
Qed.

Lemma wp_and {A : Type} (c : M fw A) w
    (Q Q' : list (event fw) -> World fw -> res A -> Prop) :
  wp c w Q -> wp c w Q' -> wp c w (fun evs w' r => Q evs w' r /\ Q' evs w' r).
Proof.
  intros (evs & Hlog & H) (evs' & Hlog' & H'). exists evs.
  rewrite Hlog in Hlog'. apply app_inv_head in Hlog'. subst evs'. auto.
Qed.

(** Run from an empty log, the log at the end is what the run added. *)
Lemma wp_from_empty_log {A : Type} (c : M fw A) w
    (Q : list (event fw) -> World fw -> res A -> Prop) :
  log w = [] -> wp c w Q -> Q (log (fst (c w))) (fst (c w)) (snd (c w)).
Proof.
  intros E (evs & Hlog & HQ). rewrite E in Hlog. simpl in Hlog.
  rewrite Hlog. exact HQ.
Qed.

(** ** The functions of the module produce these logs *)

Lemma wp_clone base_trainer base_model w
    (Q : list (event fw) -> World fw -> res (loc * loc) -> Prop) :
  (forall h',
     next_loc h' = S (S (next_loc (heap w))) ->
     (forall l, l <> next_loc (heap w) -> trainers h' l = trainers (heap w) l) ->
     (forall l, l <> S (next_loc (heap w)) -> models h' l = models (heap w) l) ->
     Q [Clone base_trainer base_model
          ~> VObjects (next_loc (heap w)) (S (next_loc (heap w)))]
       {| heap := h';
          log := log w ++ [Clone base_trainer base_model
                   ~> VObjects (next_loc (heap w)) (S (next_loc (heap w)))] |}
       (Ok (next_loc (heap w), S (next_loc (heap w))))) ->
  wp (clone base_trainer base_model) w Q.
Proof.
  intros H. apply wp_invoke. intros h' r E. injection E as <- <-.
  apply H; simpl; auto; intros l Hl; unfold upd;
    destruct (Nat.eqb_spec l (next_loc (heap w)));
    destruct (Nat.eqb_spec l (S (next_loc (heap w)))); congruence.
Qed.

Ltac wp_step :=
  lazymatch goal with
  | |- wp (bind _ _) _ _ => apply wp_bind
  | |- wp (ret _) _ _ => apply wp_ret
  | |- wp (read _) _ _ => apply wp_read
  | |- wp (clone _ _) _ _ => apply wp_clone; intros ? _ _ _
  | |- wp (invoke _ _ _) _ _ => apply wp_invoke; intros ? [? | ?] _
  end;
  cbn [app outcome_of fst snd].

Ltac wp_calls :=
  unfold configure_model, init_logger_run, finish_logger_run, fit, validate,
    test, predict, SessionRecorder, update, save.

Lemma fit_and_validate_wp trainer model datamodule verbose w :
  wp (fit_and_validate trainer model datamodule verbose) w
    (fun evs _ r =>
       fit_and_validate_trace trainer model datamodule verbose r evs).
Proof.
  unfold fit_and_validate. wp_calls. repeat wp_step.
  - destruct (datasets_test _ _); repeat wp_step.
    + apply (@fv_returns _ _ _ _ _ _ _ _ (Some _)).
    + apply fv_test_raises.
    + apply (@fv_returns _ _ _ _ _ _
               (checkpoint_type fw (trainers (heap w) trainer)) _ None).
  - apply fv_validate_raises.
  - apply fv_fit_raises.
Qed.

Lemma run_evaluation_wp base_trainer base_model datamodule run_id verbose w :
  wp (run_evaluation base_trainer base_model datamodule run_id verbose) w
    (fun evs _ r =>
       run_evaluation_trace base_trainer base_model datamodule run_id verbose
         r evs).
Proof.
  unfold run_evaluation. wp_calls. repeat wp_step.
  - eapply wp_weaken; [ apply fit_and_validate_wp | ].
    intros evs w' r Htrace. cbv beta. destruct r as [[vs ts] | e].
    + inversion Htrace; subst. repeat wp_step.
      * apply (@run_returns _ _ _ _ _ _ (Build_run_record _ _ _ _ _ _)).
      * apply run_finish_raises.
    + apply run_fit_and_validate_raises, Htrace.
  - apply run_init_raises.
  - apply run_configure_raises.
Qed.

Lemma infer_model_wp base_trainer base_model datamodule return_predictions w :
  wp (infer_model base_trainer base_model datamodule return_predictions) w
    (fun evs _ r =>
       infer_model_trace base_trainer base_model datamodule
         return_predictions r evs).
Proof.
  unfold infer_model. wp_calls. repeat wp_step.
  - apply (@infer_predicts _ _ _ _ _ _ _ (Ok _)).
  - apply (@infer_predicts _ _ _ _ _ _ _ (Raise _)).
Qed.

Lemma loop_wp base_trainer base_model datamodule verbose recorder run_indices :
  forall w,
  wp (for_each run_indices (fun run_index =>
        scores <- run_evaluation base_trainer base_model datamodule
                    (Some run_index) verbose ;;
        let (validation_scores, test_scores) := scores in
        update recorder validation_scores test_scores)) w
    (fun evs _ r =>
       loop_trace base_trainer base_model datamodule verbose recorder
         run_indices r evs).
Proof.
  induction run_indices as [| run_index rest IH]; intros w; cbn [for_each].
  - wp_step. apply loop_done.
  - do 2 wp_step. eapply wp_weaken; [ apply run_evaluation_wp | ].
    intros evs w' r Htrace. cbv beta. destruct r as [[vs ts] | e].
    + inversion Htrace; subst. wp_calls. wp_step.
      * eapply wp_weaken; [ apply IH | ].
        intros evs' w'' r'. cbv beta. intros Hloop.
        apply loop_next, Hloop.
      * apply loop_update_raises.
    + apply loop_run_raises, Htrace.
Qed.

Lemma run_evaluation_session_wp base_trainer base_model datamodule n_runs
    verbose w :
  wp (run_evaluation_session base_trainer base_model datamodule n_runs verbose)
    w
    (fun evs _ r =>
       session_trace base_trainer base_model datamodule
         (default_log_dir fw (trainers (heap w) base_trainer)) n_runs verbose
         r evs).
Proof.
  unfold run_evaluation_session. wp_calls. repeat wp_step.
  - eapply wp_weaken; [ apply loop_wp | ].
    intros evs w' r Hloop. cbv beta. destruct r as [[] | e].
    + wp_step.
      * destruct a0. apply (@session_saves _ _ _ _ _ _ _ _ _ (Ok tt) Hloop).
      * apply (@session_saves _ _ _ _ _ _ _ _ _ (Raise _) Hloop).
    + apply session_loop_raises, Hloop.
  - apply session_recorder_raises.
Qed.

(** ** Exceptions *)

Lemma propagates_cons {A : Type} (r : res A) ev evs :
  returned ev -> propagates r evs -> propagates r (ev :: evs).
Proof.
  intros Hev. destruct r as [a | e]; simpl.
  - intros H. constructor; assumption.
  - intros (evs0 & c & -> & H). exists (ev :: evs0), c. split.
    + reflexivity.
    + constructor; assumption.
Qed.

Lemma propagates_app {A : Type} (r : res A) evs1 evs :
  Forall returned evs1 -> propagates r evs -> propagates r (evs1 ++ evs).
Proof.
  induction 1 as [| ev evs1 Hev _ IH]; intros H; simpl.
  - assumption.
  - apply propagates_cons; auto.
Qed.

Lemma propagates_raised {A : Type} (c : call fw) e :
  propagates (@Raise _ A e) [c ~>! e].
Proof.
  exists [], c. split; [ reflexivity | constructor ].
Qed.

Lemma propagates_last {A : Type} (c : call fw) (to_value : A -> value fw)
    (r : res A) :
  propagates r [Ev c (outcome_of to_value r)].
Proof.
  destruct r as [a | e]; simpl.
  - constructor; [ eexists; reflexivity | constructor ].
  - apply (propagates_raised (A:=A)).
Qed.

Lemma propagates_retype {A B : Type} e evs :
  propagates (@Raise _ A e) evs -> propagates (@Raise _ B e) evs.
Proof.
  exact (fun H => H).
Qed.

Lemma returned_returns (c : call fw) v : returned (c ~> v).
Proof.
  exists v. reflexivity.
Qed.

#[local] Hint Resolve returned_returns : trace.

Lemma returned_test_events trainer datamodule verbose ckpt test_scores :
  Forall returned (test_events trainer datamodule verbose ckpt test_scores).
Proof.
  destruct test_scores; simpl; auto with trace.
Qed.

Lemma returned_fit_and_validate_events trainer model datamodule verbose
    ckpt ckpt' validation_scores test_scores :
  Forall returned
    (fit_and_validate_events trainer model datamodule verbose ckpt ckpt'
       validation_scores test_scores).
Proof.
  unfold fit_and_validate_events. apply Forall_app. split.
  - auto with trace.
  - apply returned_test_events.
Qed.

Lemma returned_run_events base_trainer base_model datamodule run_id verbose
    run :
  Forall returned
    (run_events base_trainer base_model datamodule run_id verbose run).
Proof.
  unfold run_events, run_prologue.
  apply Forall_app; split; [ | apply Forall_app; split ].
  - auto with trace.
  - apply returned_fit_and_validate_events.
  - auto with trace.
Qed.

Lemma returned_recorded_run base_trainer base_model datamodule verbose
    recorder run_index run :
  Forall returned
    (recorded_run base_trainer base_model datamodule verbose recorder
       run_index run).
Proof.
  unfold recorded_run. apply Forall_app. split.
  - apply returned_run_events.
  - auto with trace.
Qed.

Lemma fit_and_validate_trace_propagates trainer model datamodule verbose r evs :
  fit_and_validate_trace trainer model datamodule verbose r evs ->
  propagates r evs.
Proof.
  destruct 1.
  - apply (propagates_raised (A:=Scores fw * option (Scores fw))).
  - apply propagates_cons; auto with trace.
    apply (propagates_raised (A:=Scores fw * option (Scores fw))).
  - do 2 (apply propagates_cons; auto with trace).
    apply (propagates_raised (A:=Scores fw * option (Scores fw))).
  - apply returned_fit_and_validate_events.
Qed.

Lemma run_evaluation_trace_propagates base_trainer base_model datamodule
    run_id verbose r evs :
  run_evaluation_trace base_trainer base_model datamodule run_id verbose r evs ->
  propagates r evs.
Proof.
  destruct 1 as [ | | ? ? ? ? Hfv | | ].
  - apply propagates_cons; auto with trace.
    apply (propagates_raised (A:=Scores fw * option (Scores fw))).
  - do 2 (apply propagates_cons; auto with trace).
    apply (propagates_raised (A:=Scores fw * option (Scores fw))).
  - apply propagates_app.
    + unfold run_prologue. auto with trace.
    + apply (fit_and_validate_trace_propagates Hfv).
  - apply propagates_app; [ unfold run_prologue; auto with trace | ].
    apply propagates_app; [ apply returned_fit_and_validate_events | ].
    apply (propagates_raised (A:=Scores fw * option (Scores fw))).
  - apply returned_run_events.
Qed.

Lemma loop_trace_propagates base_trainer base_model datamodule verbose
    recorder run_indices r evs :
  loop_trace base_trainer base_model datamodule verbose recorder run_indices
    r evs ->
  propagates r evs.
Proof.
  induction 1 as [ | ? ? ? ? Hrun | | ? ? ? ? ? _ IH ].
  - constructor.
  - exact (propagates_retype (B:=unit)
             (run_evaluation_trace_propagates Hrun)).
  - apply propagates_app; [ apply returned_run_events | ].
    apply (propagates_raised (A:=unit)).
  - apply propagates_app; [ apply returned_recorded_run | exact IH ].
Qed.

Lemma session_trace_propagates base_trainer base_model datamodule output_dir
    n_runs verbose r evs :
  session_trace base_trainer base_model datamodule output_dir n_runs verbose
    r evs ->
  propagates r evs.
Proof.
  destruct 1 as [ | ? ? ? Hloop | ? ? ? Hloop ].
  - apply (propagates_raised (A:=unit)).
  - apply propagates_cons; auto with trace.
    apply (loop_trace_propagates Hloop).
  - apply propagates_cons; auto with trace.
    apply propagates_app.
    + apply (loop_trace_propagates Hloop).
    + apply propagates_last.
Qed.

Lemma infer_model_trace_propagates base_trainer base_model datamodule
    return_predictions r evs :
  infer_model_trace base_trainer base_model datamodule return_predictions
    r evs ->
  propagates r evs.
Proof.
  destruct 1. apply propagates_cons; auto with trace. apply propagates_last.
Qed.

(** ** Phases *)

Lemma phases_app evs1 evs2 : phases (evs1 ++ evs2) = phases evs1 ++ phases evs2.
Proof.
  apply map_app.
Qed.

Lemma phases_fit_and_validate_events trainer model datamodule verbose
    ckpt (ckpt' : Ckpt fw) validation_scores test_scores :
  phases (fit_and_validate_events trainer model datamodule verbose ckpt ckpt'
            validation_scores test_scores)
  = [PFit; PValidate]
    ++ (if tested test_scores then [PTest] else []).
Proof.
  destruct test_scores; reflexivity.
Qed.

Lemma phases_run_events base_trainer base_model datamodule run_id verbose run :
  phases (run_events base_trainer base_model datamodule run_id verbose run)
  = run_phases (tested (run_test_scores run)).
Proof.
  unfold run_events. rewrite !phases_app, phases_fit_and_validate_events.
  destruct (run_test_scores run); reflexivity.
Qed.

(** The phases of a [fit_and_validate], complete or cut short. *)
Lemma fit_and_validate_trace_phases trainer model datamodule verbose
    (r : res (Scores fw * option (Scores fw))) evs :
  fit_and_validate_trace trainer model datamodule verbose r evs ->
  exists (with_test : bool) rest,
    phases evs ++ rest
    = [PFit; PValidate] ++ (if with_test then [PTest] else []).
Proof.
  destruct 1.
  - exists false, [PValidate]. reflexivity.
  - exists false, []. reflexivity.
  - exists true, []. reflexivity.
  - exists (tested test_scores), [].
    rewrite phases_fit_and_validate_events, app_nil_r.
    destruct test_scores; reflexivity.
Qed.

(** The phases of a run, complete or cut short by an exception. *)
Lemma run_evaluation_trace_phases base_trainer base_model datamodule run_id
    verbose (r : res (Scores fw * option (Scores fw))) evs :
  run_evaluation_trace base_trainer base_model datamodule run_id verbose r evs ->
  exists (with_test : bool) rest,
    phases evs ++ rest = run_phases with_test /\
    (forall scores, r = Ok scores -> rest = []).
Proof.
  destruct 1 as [ | | ? ? ? ? Hfv | | ].
  - exists false, [PInitLogger; PFit; PValidate; PFinishLogger].
    split; [ reflexivity | discriminate ].
  - exists false, [PFit; PValidate; PFinishLogger].
    split; [ reflexivity | discriminate ].
  - destruct (fit_and_validate_trace_phases Hfv) as (with_test & rest & E).
    exists with_test, (rest ++ [PFinishLogger]).
    split; [ | discriminate ].
    rewrite phases_app, <- app_assoc. unfold run_phases. simpl. do 3 f_equal.
    rewrite app_assoc, E. reflexivity.
  - exists (tested test_scores), [].
    split; [ | discriminate ].
    rewrite !phases_app, phases_fit_and_validate_events, app_nil_r.
    destruct test_scores; reflexivity.
  - exists (tested (run_test_scores run)), [].
    split; [ | reflexivity ].
    rewrite phases_run_events, app_nil_r. reflexivity.
Qed.

(** ** Cutting a log at an event *)

Lemma cut_after (P : event fw -> Prop) evs1 evs2 pre ev post :
  Forall (fun ev' => ~ P ev') evs1 -> P ev ->
  evs1 ++ evs2 = pre ++ ev :: post ->
  exists pre', pre = evs1 ++ pre' /\ evs2 = pre' ++ ev :: post.
Proof.
  intros Hnot Hev. revert pre.
  induction Hnot as [| ev1 evs1 Hev1 _ IH]; intros pre E; simpl in E.
  - exists pre. auto.
  - destruct pre as [| ev' pre]; simpl in E; injection E as E1 E2.
    + subst ev1. contradiction.
    + subst ev'. destruct (IH _ E2) as (pre' & -> & ->).
      exists pre'. auto.
Qed.

Lemma cut_nowhere (P : event fw -> Prop) evs pre ev post :
  Forall (fun ev' => ~ P ev') evs -> P ev -> evs <> pre ++ ev :: post.
Proof.
  intros Hnot Hev E. rewrite <- (app_nil_r evs) in E.
  destruct (@cut_after P _ _ _ _ _ Hnot Hev E) as (pre' & _ & E').
  destruct pre'; discriminate.
Qed.

Lemma cut_before (P : event fw -> Prop) evs1 evs2 pre ev post :
  Forall (fun ev' => ~ P ev') evs2 -> P ev ->
  evs1 ++ evs2 = pre ++ ev :: post ->
  exists post', evs1 = pre ++ ev :: post' /\ post = post' ++ evs2.
Proof.
  intros Hnot Hev E. apply app_eq_app in E.
  destruct E as (l & [[-> E] | [-> E]]).
  - destruct l as [| ev' l]; simpl in E.
    + subst evs2. inversion Hnot; contradiction.
    + injection E as <- ->. exists l. auto.
  - exfalso. exact (@cut_nowhere P _ _ _ _ Hnot Hev E).
Qed.

Lemma not_phase_if_absent (p : phase) evs :
  ~ In p (phases evs) ->
  Forall (fun ev => phase_of (ev_call ev) <> p) evs.
Proof.
  intros Hnot. apply Forall_forall. intros ev Hin E. apply Hnot.
  rewrite <- E. apply (in_map (fun ev => phase_of (ev_call ev))), Hin.
Qed.

Lemma phases_prefix_absent (p : phase) evs rest all :
  phases evs ++ rest = all -> ~ In p all ->
  Forall (fun ev => phase_of (ev_call ev) <> p) evs.
Proof.
  intros E Hnot. apply not_phase_if_absent. intros Hin. apply Hnot.
  rewrite <- E. apply in_or_app. auto.
Qed.

(** ** The loop of a session *)

Lemma run_phases_clone_first with_test :
  exists rest, run_phases with_test = PClone :: rest /\ ~ In PClone rest.
Proof.
  destruct with_test; eexists; (split; [ reflexivity | ]);
    simpl; intuition discriminate.
Qed.

Lemma run_phases_no_record with_test : ~ In PRecord (run_phases with_test).
Proof.
  destruct with_test; simpl; intuition discriminate.
Qed.

(** A run, complete or not, begins with its [clone], has no other and
    records nothing. *)
Lemma run_evaluation_trace_shape base_trainer base_model datamodule run_id
    verbose (r : res (Scores fw * option (Scores fw))) evs :
  run_evaluation_trace base_trainer base_model datamodule run_id verbose r evs ->
  (exists ev rest,
     evs = ev :: rest /\ phase_of (ev_call ev) = PClone /\
     Forall (fun ev' => phase_of (ev_call ev') <> PClone) rest) /\
  Forall (fun ev' => phase_of (ev_call ev') <> PRecord) evs.
Proof.
  intros H.
  destruct (run_evaluation_trace_phases H) as (with_test & rest & E & _).
  split.
  - destruct (run_phases_clone_first with_test) as (others & E' & Hnot).
    rewrite E' in E.
    assert (Hne : evs <> []) by (destruct H; discriminate).
    destruct evs as [| ev evs']; [ contradiction | ].
    simpl in E. injection E as E1 E2.
    exists ev, evs'. repeat split; auto.
    eapply phases_prefix_absent; [ exact E2 | exact Hnot ].
  - eapply phases_prefix_absent; [ exact E | apply run_phases_no_record ].
Qed.

Lemma run_events_shape base_trainer base_model datamodule run_id verbose run :
  (exists ev rest,
     run_events base_trainer base_model datamodule run_id verbose run
     = ev :: rest /\
     phase_of (ev_call ev) = PClone /\
     Forall (fun ev' => phase_of (ev_call ev') <> PClone) rest) /\
  Forall (fun ev' => phase_of (ev_call ev') <> PRecord)
    (run_events base_trainer base_model datamodule run_id verbose run).
Proof.
  eapply run_evaluation_trace_shape. apply run_returns.
Qed.

Lemma recorded_runs_cons base_trainer base_model datamodule verbose
    recorder run_index run run_indices runs :
  recorded_runs base_trainer base_model datamodule verbose recorder
    (run_index :: run_indices) (run :: runs)
  = recorded_run base_trainer base_model datamodule verbose recorder
      run_index run
    ++ recorded_runs base_trainer base_model datamodule verbose recorder
         run_indices runs.
Proof.
  reflexivity.
Qed.

(** A loop that is not cut short is a sequence of recorded runs, one for
    each index. *)
Lemma loop_trace_returns base_trainer base_model datamodule verbose recorder
    run_indices evs :
  loop_trace base_trainer base_model datamodule verbose recorder run_indices
    (Ok tt) evs ->
  exists runs,
    length runs = length run_indices /\
    evs = recorded_runs base_trainer base_model datamodule verbose recorder
            run_indices runs.
Proof.
  intros H. remember (Ok tt) as r eqn:Er.
  induction H as [ | | | run_index rest run r evs _ IH ]; try discriminate.
  - exists []. auto.
  - destruct (IH Er) as (runs & Hlen & ->).
    exists (run :: runs). simpl. auto.
Qed.

(** Wherever a run begins in the log of the loop, what comes before it is
    a sequence of recorded runs. *)
Lemma loop_trace_run_starts base_trainer base_model datamodule verbose
    recorder run_indices (r : res unit) evs :
  loop_trace base_trainer base_model datamodule verbose recorder run_indices
    r evs ->
  forall pre ev post,
    phase_of (ev_call ev) = PClone -> evs = pre ++ ev :: post ->
    exists runs,
      length runs < length run_indices /\
      pre = recorded_runs base_trainer base_model datamodule verbose recorder
              run_indices runs.
Proof.
  assert (Hblock : forall block pre ev post,
    (exists ev0 rest,
       block = ev0 :: rest /\ phase_of (ev_call ev0) = PClone /\
       Forall (fun ev' => phase_of (ev_call ev') <> PClone) rest) ->
    phase_of (ev_call ev) = PClone -> block = pre ++ ev :: post -> pre = []).
  { intros block pre ev post (ev0 & rest & -> & _ & Hrest) Hev E.
    destruct pre as [| ev' pre]; [ reflexivity | ].
    injection E as _ E. exfalso.
    exact (@cut_nowhere (fun ev' => phase_of (ev_call ev') = PClone)
             _ _ _ _ Hrest Hev E). }
  induction 1 as [ | run_index rest e evs Hrun | run_index rest run e
                   | run_index rest run r evs _ IH ];
    intros pre ev post Hev E.
  - destruct pre; discriminate.
  - exists []. split; [ simpl; lia | ].
    eapply Hblock; [ apply (run_evaluation_trace_shape Hrun) | exact Hev | exact E ].
  - exists []. split; [ simpl; lia | ].
    destruct (run_events_shape base_trainer base_model datamodule
                (Some run_index) verbose run)
      as ((ev0 & others & E0 & Hev0 & Hothers) & _).
    apply (Hblock _ pre ev post) in E; auto.
    exists ev0, (others ++ [RecorderUpdate recorder (run_validation_scores run)
                              (run_test_scores run) ~>! e]).
    rewrite E0. repeat split; auto.
    apply Forall_app. split; [ assumption | ].
    constructor; [ discriminate | constructor ].
  - destruct pre as [| ev' pre].
    + exists []. split; [ simpl; lia | reflexivity ].
    + destruct (run_events_shape base_trainer base_model datamodule
                  (Some run_index) verbose run)
        as ((ev0 & others & E0 & Hev0 & Hothers) & _).
      unfold recorded_run in E. rewrite E0 in E. simpl in E.
      injection E as E1 E. rewrite <- app_assoc in E.
      assert (Hblock' :
        Forall (fun ev' => ~ phase_of (ev_call ev') = PClone)
          (others ++ [RecorderUpdate recorder (run_validation_scores run)
                        (run_test_scores run) ~> VNone])).
      { apply Forall_app. split; [ assumption | ].
        constructor; [ discriminate | constructor ]. }
      rewrite app_assoc in E.
      destruct (@cut_after (fun ev' => phase_of (ev_call ev') = PClone)
                  _ _ _ _ _ Hblock' Hev E) as (pre' & -> & E').
      destruct (IH _ _ _ Hev E') as (runs & Hlen & ->).
      exists (run :: runs). split; [ simpl; lia | ].
      rewrite recorded_runs_cons. unfold recorded_run.
      rewrite E0, <- E1. simpl. rewrite <- !app_assoc. reflexivity.
Qed.

(** Wherever [recorder.update] is called in the log of the loop, it comes
    right after a complete run and is given the scores of that run. *)
Lemma loop_trace_records base_trainer base_model datamodule verbose recorder
    run_indices (r : res unit) evs :
  loop_trace base_trainer base_model datamodule verbose recorder run_indices
    r evs ->
  forall pre ev post,
    phase_of (ev_call ev) = PRecord -> evs = pre ++ ev :: post ->
    exists pre' run_index run,
      In run_index run_indices /\
      pre = pre' ++ run_events base_trainer base_model datamodule
                      (Some run_index) verbose run /\
      ev_call ev = RecorderUpdate recorder (run_validation_scores run)
                     (run_test_scores run).
Proof.
  induction 1 as [ | run_index rest e evs Hrun | run_index rest run e
                   | run_index rest run r evs _ IH ];
    intros pre ev post Hev E.
  - destruct pre; discriminate.
  - exfalso.
    exact (@cut_nowhere (fun ev' => phase_of (ev_call ev') = PRecord)
             _ _ _ _ (proj2 (run_evaluation_trace_shape Hrun)) Hev E).
  - destruct (@cut_after (fun ev' => phase_of (ev_call ev') = PRecord)
                _ _ _ _ _
                (proj2 (run_events_shape base_trainer base_model datamodule
                          (Some run_index) verbose run)) Hev E)
      as (pre' & -> & E').
    destruct pre' as [| ev' pre']; simpl in E'.
    + injection E' as <- _. exists [], run_index, run.
      rewrite app_nil_r. simpl. auto.
    + injection E' as _ E'. destruct pre'; discriminate.
  - unfold recorded_run in E. rewrite <- app_assoc in E.
    destruct (@cut_after (fun ev' => phase_of (ev_call ev') = PRecord)
                _ _ _ _ _
                (proj2 (run_events_shape base_trainer base_model datamodule
                          (Some run_index) verbose run)) Hev E)
      as (pre' & -> & E').
    destruct pre' as [| ev' pre']; simpl in E'.
    + injection E' as <- _. exists [], run_index, run.
      rewrite app_nil_r. simpl. auto.
    + injection E' as <- E'.
      destruct (IH _ _ _ Hev E') as (pre0 & i & run' & Hin & -> & Hcall).
      exists (run_events base_trainer base_model datamodule (Some run_index)
                verbose run
              ++ (RecorderUpdate recorder (run_validation_scores run)
                    (run_test_scores run) ~> VNone) :: pre0), i, run'.
      repeat split.
      * right. exact Hin.
      * rewrite <- app_assoc. reflexivity.
      * exact Hcall.
Qed.

(** ** Verbosity *)

Lemma verbosity_nil session per_run :
  verbosity session per_run ([] : list (event fw)).
Proof.
  intros ev [].
Qed.

Lemma verbosity_cons session per_run ev evs :
  (forall flag, session_verbose (ev_call ev) = Some flag -> flag = session) ->
  (forall flag, run_verbose (ev_call ev) = Some flag -> flag = per_run) ->
  verbosity session per_run evs -> verbosity session per_run (ev :: evs).
Proof.
  intros H1 H2 H ev' [<- | Hin]; auto.
Qed.

Lemma verbosity_app session per_run evs1 evs2 :
  verbosity session per_run evs1 -> verbosity session per_run evs2 ->
  verbosity session per_run (evs1 ++ evs2).
Proof.
  intros H1 H2 ev Hin. apply in_app_or in Hin. destruct Hin; auto.
Qed.

Ltac verbosity_list :=
  repeat first
    [ apply verbosity_nil
    | apply verbosity_cons;
      [ simpl; intros flag E; congruence
      | simpl; intros flag E; congruence
      | ] ].

Lemma verbosity_fit_and_validate_events session trainer model datamodule
    verbose ckpt (ckpt' : Ckpt fw) validation_scores test_scores :
  verbosity session verbose
    (fit_and_validate_events trainer model datamodule verbose ckpt ckpt'
       validation_scores test_scores).
Proof.
  unfold fit_and_validate_events, test_events.
  destruct test_scores; simpl; verbosity_list.
Qed.

Lemma verbosity_fit_and_validate session trainer model datamodule verbose
    (r : res (Scores fw * option (Scores fw))) evs :
  fit_and_validate_trace trainer model datamodule verbose r evs ->
  verbosity session verbose evs.
Proof.
  destruct 1; try apply verbosity_fit_and_validate_events; verbosity_list.
Qed.

Lemma verbosity_run_evaluation session base_trainer base_model datamodule
    run_id verbose (r : res (Scores fw * option (Scores fw))) evs :
  run_evaluation_trace base_trainer base_model datamodule run_id verbose r evs ->
  verbosity session verbose evs.
Proof.
  destruct 1 as [ | | ? ? ? ? Hfv | | ]; unfold run_events, run_prologue.
  - verbosity_list.
  - verbosity_list.
  - apply verbosity_app; [ verbosity_list | ].
    apply (verbosity_fit_and_validate session Hfv).
  - apply verbosity_app; [ verbosity_list | ].
    apply verbosity_app; [ apply verbosity_fit_and_validate_events | ].
    verbosity_list.
  - apply verbosity_app; [ verbosity_list | ].
    apply verbosity_app; [ apply verbosity_fit_and_validate_events | ].
    verbosity_list.
Qed.

Lemma verbosity_loop session base_trainer base_model datamodule verbose
    recorder run_indices (r : res unit) evs :
  loop_trace base_trainer base_model datamodule verbose recorder run_indices
    r evs ->
  verbosity session verbose evs.
Proof.
  induction 1 as [ | ? ? ? ? Hrun | | ? ? ? ? ? _ IH ].
  - apply verbosity_nil.
  - apply (verbosity_run_evaluation session Hrun).
  - apply verbosity_app; [ | verbosity_list ].
    eapply verbosity_run_evaluation. apply run_returns.
  - apply verbosity_app; [ | exact IH ].
    apply verbosity_app; [ | verbosity_list ].
    eapply verbosity_run_evaluation. apply run_returns.
Qed.

Lemma verbosity_session base_trainer base_model datamodule output_dir n_runs
    verbose (r : res unit) evs :
  session_trace base_trainer base_model datamodule output_dir n_runs verbose
    r evs ->
  verbosity verbose (negb verbose) evs.
Proof.
  destruct 1 as [ | ? ? ? Hloop | ? ? ? Hloop ].
  - verbosity_list.
  - apply verbosity_cons; [ simpl; congruence | simpl; congruence | ].
    apply (verbosity_loop verbose Hloop).
  - apply verbosity_cons; [ simpl; congruence | simpl; congruence | ].
    apply verbosity_app; [ apply (verbosity_loop verbose Hloop) | ].
    verbosity_list.
Qed.

(** ** Runs work on their clones *)

Lemma on_clones_app base_trainer base_model evs1 evs2 :
  on_clones base_trainer base_model evs1 ->
  on_clones base_trainer base_model evs2 ->
  on_clones base_trainer base_model (evs1 ++ evs2).
Proof.
  intros H1 H2 ev Hin. apply in_app_or in Hin. destruct Hin as [Hin | Hin].
  - destruct (H1 ev Hin) as [Ht Hm]. split.
    + intros t E. destruct (Ht t E) as (m & Hc). exists m.
      apply in_or_app. auto.
    + intros m E. destruct (Hm m E) as (t & Hc). exists t.
      apply in_or_app. auto.
  - destruct (H2 ev Hin) as [Ht Hm]. split.
    + intros t E. destruct (Ht t E) as (m & Hc). exists m.
      apply in_or_app. auto.
    + intros m E. destruct (Hm m E) as (t & Hc). exists t.
      apply in_or_app. auto.
Qed.

Lemma on_clones_after_clone base_trainer base_model trainer model evs :
  only_on trainer model evs ->
  on_clones base_trainer base_model
    ((Clone base_trainer base_model ~> VObjects trainer model) :: evs).
Proof.
  intros H ev [<- | Hin].
  - split; discriminate.
  - unfold only_on in H. rewrite Forall_forall in H.
    destruct (H ev Hin) as [Ht Hm]. split.
    + intros t E. rewrite (Ht t E). exists model. left. reflexivity.
    + intros m E. rewrite (Hm m E). exists trainer. left. reflexivity.
Qed.

Lemma on_clones_unused base_trainer base_model evs :
  Forall (fun ev => trainer_used (ev_call ev) = None /\
                    model_used (ev_call ev) = None) evs ->
  on_clones base_trainer base_model evs.
Proof.
  intros H ev Hin. rewrite Forall_forall in H. destruct (H ev Hin) as [Et Em].
  rewrite Et, Em. split; discriminate.
Qed.

Ltac only_on_list :=
  unfold only_on;
  repeat first
    [ apply Forall_nil
    | apply Forall_cons;
      [ simpl; split; intros ? E; congruence | ] ].

Lemma only_on_fit_and_validate_events trainer model datamodule verbose ckpt
    (ckpt' : Ckpt fw) validation_scores test_scores :
  only_on trainer model
    (fit_and_validate_events trainer model datamodule verbose ckpt ckpt'
       validation_scores test_scores).
Proof.
  destruct test_scores; simpl; only_on_list.
Qed.

Lemma only_on_fit_and_validate trainer model datamodule verbose
    (r : res (Scores fw * option (Scores fw))) evs :
  fit_and_validate_trace trainer model datamodule verbose r evs ->
  only_on trainer model evs.
Proof.
  destruct 1; try apply only_on_fit_and_validate_events; only_on_list.
Qed.

Lemma on_clones_run_evaluation base_trainer base_model datamodule run_id
    verbose (r : res (Scores fw * option (Scores fw))) evs :
  run_evaluation_trace base_trainer base_model datamodule run_id verbose r evs ->
  on_clones base_trainer base_model evs.
Proof.
  destruct 1 as [ | | ? ? ? ? Hfv | | ]; unfold run_events, run_prologue;
    cbn [app]; apply on_clones_after_clone.
  - only_on_list.
  - only_on_list.
  - do 2 (apply Forall_cons; [ simpl; split; intros ? E; congruence | ]).
    apply (only_on_fit_and_validate Hfv).
  - do 2 (apply Forall_cons; [ simpl; split; intros ? E; congruence | ]).
    apply Forall_app. split.
    + apply only_on_fit_and_validate_events.
    + only_on_list.
  - do 2 (apply Forall_cons; [ simpl; split; intros ? E; congruence | ]).
    apply Forall_app. split.
    + apply only_on_fit_and_validate_events.
    + only_on_list.
Qed.

Lemma on_clones_loop base_trainer base_model datamodule verbose recorder
    run_indices (r : res unit) evs :
  loop_trace base_trainer base_model datamodule verbose recorder run_indices
    r evs ->
  on_clones base_trainer base_model evs.
Proof.
  induction 1 as [ | ? ? ? ? Hrun | | ? ? ? ? ? _ IH ].
  - intros ev [].
  - apply (on_clones_run_evaluation Hrun).
  - apply on_clones_app.
    + eapply on_clones_run_evaluation. apply run_returns.
    + apply on_clones_unused. repeat constructor.
  - apply on_clones_app; [ | exact IH ].
    apply on_clones_app.
    + eapply on_clones_run_evaluation. apply run_returns.
    + apply on_clones_unused. repeat constructor.
Qed.

Lemma on_clones_session base_trainer base_model datamodule output_dir n_runs
    verbose (r : res unit) evs :
  session_trace base_trainer base_model datamodule output_dir n_runs verbose
    r evs ->
  on_clones base_trainer base_model evs.
Proof.
  destruct 1 as [ | ? ? ? Hloop | ? ? ? Hloop ].
  - apply on_clones_unused. repeat constructor.
  - apply (on_clones_app (evs1 := [_])).
    + apply on_clones_unused. repeat constructor.
    + apply (on_clones_loop Hloop).
  - apply (on_clones_app (evs1 := [_])).
    + apply on_clones_unused. repeat constructor.
    + apply on_clones_app.
      * apply (on_clones_loop Hloop).
      * apply on_clones_unused. repeat constructor.
Qed.

Lemma on_clones_infer_model base_trainer base_model datamodule
    return_predictions (r : res (Preds fw)) evs :
  infer_model_trace base_trainer base_model datamodule return_predictions
    r evs ->
  on_clones base_trainer base_model evs.
Proof.
  destruct 1. apply on_clones_after_clone. only_on_list.
Qed.

(** ** Runs leave the older objects alone *)

Lemma old_unchanged_refl first_new h : old_unchanged first_new h h.
Proof.
  unfold old_unchanged. auto.
Qed.

Lemma old_unchanged_trans first_new h1 h2 h3 :
  old_unchanged first_new h1 h2 -> old_unchanged first_new h2 h3 ->
  old_unchanged first_new h1 h3.
Proof.
  intros (Hn & Ht & Hm) (Hn' & Ht' & Hm'). repeat split.
  - lia.
  - intros l Hl. rewrite Ht', Ht; auto.
  - intros l Hl. rewrite Hm', Hm; auto.
Qed.

Lemma on_new_objects_app first_new evs1 evs2 :
  on_new_objects first_new evs1 -> on_new_objects first_new evs2 ->
  on_new_objects first_new (evs1 ++ evs2).
Proof.
  intros H1 H2 ev Hin. apply in_app_or in Hin. destruct Hin; auto.
Qed.

Lemma upd_other {A : Type} (f : loc -> A) l a l' :
  l' <> l -> upd f l a l' = f l'.
Proof.
  intros Hne. unfold upd. destruct (Nat.eqb_spec l' l); congruence.
Qed.

Lemma upd_same {A : Type} (f : loc -> A) l a : upd f l a l = a.
Proof.
  unfold upd. rewrite Nat.eqb_refl. reflexivity.
Qed.

(** Take apart the equation [H] a framework call has left. *)
Ltac destruct_step H :=
  cbn beta iota in H;
  repeat match type of H with
         | context [match ?x with _ => _ end] => destruct x
         end;
  injection H as <- <-.

(** A call on objects no older than [first_new] leaves the older ones
    alone. *)
Lemma wp_invoke_frame {A : Type} first_new h0 (c : call fw)
    (to_value : A -> value fw) (step : Heap fw -> Heap fw * res A) w
    (Q : list (event fw) -> World fw -> res A -> Prop) :
  (forall h h' r, step h = (h', r) -> old_unchanged first_new h h') ->
  old_unchanged first_new h0 (heap w) ->
  (forall w' r,
     old_unchanged first_new h0 (heap w') ->
     Q [Ev c (outcome_of to_value r)] w' r) ->
  wp (invoke c to_value step) w Q.
Proof.
  intros Hstep H0 HQ. apply wp_invoke. intros h' r E. apply HQ. simpl.
  apply (old_unchanged_trans H0), (Hstep _ _ _ E).
Qed.

Ltac old_unchanged_step :=
  let H := fresh "H" in
  intros ? ? ? H; destruct_step H;
  unfold old_unchanged; cbn [next_loc trainers models];
  (split; [ lia | split; intros ? ?; rewrite ?upd_other by lia; reflexivity ]).

Ltac frame_step first_new h0 :=
  lazymatch goal with
  | |- wp (bind _ _) _ _ => apply wp_bind
  | |- wp (ret _) _ _ => apply wp_ret
  | |- wp (read _) _ _ => apply wp_read
  | |- wp (invoke _ _ _) _ _ =>
      apply (@wp_invoke_frame _ first_new h0);
      [ old_unchanged_step | assumption | intros ? [? | ?] ? ]
  end;
  cbn [app outcome_of fst snd].

Ltac on_new_objects_list :=
  let ev := fresh "ev" in
  let Hin := fresh "Hin" in
  intros ev Hin; simpl in Hin;
  repeat match goal with
         | H : _ \/ _ |- _ => destruct H
         | H : False |- _ => destruct H
         end;
  subst; simpl; split; intros ? E; inversion E; lia.

Lemma wp_clone_frame first_new h0 base_trainer base_model w
    (Q : list (event fw) -> World fw -> res (loc * loc) -> Prop) :
  first_new <= next_loc (heap w) ->
  old_unchanged first_new h0 (heap w) ->
  (forall w',
     old_unchanged first_new h0 (heap w') ->
     Q [Clone base_trainer base_model
          ~> VObjects (next_loc (heap w)) (S (next_loc (heap w)))]
       w' (Ok (next_loc (heap w), S (next_loc (heap w))))) ->
  wp (clone base_trainer base_model) w Q.
Proof.
  intros Hnew H0 HQ. apply wp_invoke. intros h' r E.
  injection E as <- <-. apply HQ. simpl.
  apply (old_unchanged_trans H0).
  unfold old_unchanged; cbn [next_loc trainers models].
  split; [ lia | split ];
    intros ? ?; rewrite ?upd_other by lia; reflexivity.
Qed.

Lemma fit_and_validate_frame first_new h0 trainer model datamodule verbose w :
  first_new <= trainer -> first_new <= model ->
  old_unchanged first_new h0 (heap w) ->
  wp (fit_and_validate trainer model datamodule verbose) w
    (fun evs w' _ =>
       old_unchanged first_new h0 (heap w') /\
       on_new_objects first_new evs).
Proof.
  intros Ht Hm H0. unfold fit_and_validate. wp_calls.
  repeat frame_step first_new h0; [ | split; [ assumption | on_new_objects_list ] .. ].
  destruct (datasets_test _ _); repeat frame_step first_new h0;
    (split; [ assumption | on_new_objects_list ]).
Qed.

Lemma run_evaluation_frame first_new base_trainer base_model datamodule
    run_id verbose w :
  first_new <= next_loc (heap w) ->
  wp (run_evaluation base_trainer base_model datamodule run_id verbose) w
    (fun evs w' _ =>
       old_unchanged first_new (heap w) (heap w') /\
       on_new_objects first_new evs).
Proof.
  intros Hnew. unfold run_evaluation.
  apply wp_bind.
  apply (@wp_clone_frame first_new (heap w)); auto using old_unchanged_refl.
  intros w1 H1. wp_calls. repeat frame_step first_new (heap w);
    [ | split; [ assumption | on_new_objects_list ] .. ].
  eapply wp_weaken.
  { apply (@fit_and_validate_frame first_new (heap w)); [ lia | lia | eassumption ]. }
  cbv beta. intros evs w2 [results | e] [H2 Hevs].
  - repeat frame_step first_new (heap w);
      (split; [ assumption | ]);
      apply (on_new_objects_app (evs1 := [_; _; _]));
      [ on_new_objects_list | | on_new_objects_list | ];
      (apply on_new_objects_app; [ assumption | on_new_objects_list ]).
  - split; [ assumption | ].
    apply (on_new_objects_app (evs1 := [_; _; _]));
      [ on_new_objects_list | assumption ].
Qed.

Lemma infer_model_frame first_new base_trainer base_model datamodule
    return_predictions w :
  first_new <= next_loc (heap w) ->
  wp (infer_model base_trainer base_model datamodule return_predictions) w
    (fun evs w' _ =>
       old_unchanged first_new (heap w) (heap w') /\
       on_new_objects first_new evs).
Proof.
  intros Hnew. unfold infer_model.
  apply wp_bind.
  apply (@wp_clone_frame first_new (heap w)); auto using old_unchanged_refl.
  intros w1 H1. wp_calls. repeat frame_step first_new (heap w);
    (split; [ assumption | on_new_objects_list ]).
Qed.

Lemma loop_frame first_new h0 base_trainer base_model datamodule verbose
    recorder run_indices :
  forall w,
  first_new <= next_loc h0 ->
  old_unchanged first_new h0 (heap w) ->
  wp (for_each run_indices (fun run_index =>
        scores <- run_evaluation base_trainer base_model datamodule
                    (Some run_index) verbose ;;
        let (validation_scores, test_scores) := scores in
        update recorder validation_scores test_scores)) w
    (fun evs w' _ =>
       old_unchanged first_new h0 (heap w') /\
       on_new_objects first_new evs).
Proof.
  induction run_indices as [| run_index rest IH]; intros w Hnew H0;
    cbn [for_each].
  - apply wp_ret. split; [ assumption | intros ev [] ].
  - do 2 apply wp_bind. eapply wp_weaken.
    { apply (@run_evaluation_frame first_new).
      destruct H0 as (Hn & _). lia. }
    cbv beta. intros evs w1 [[validation_scores test_scores] | e] [H1 Hevs].
    + pose proof (old_unchanged_trans H0 H1) as H01.
      wp_calls. frame_step first_new h0.
      * eapply wp_weaken; [ apply (IH _ Hnew H) | ].
        cbv beta. intros evs' w3 r3 [H3 Hevs']. split; [ assumption | ].
        apply on_new_objects_app; [ | assumption ].
        apply on_new_objects_app; [ assumption | on_new_objects_list ].
      * split; [ assumption | ].
        apply on_new_objects_app; [ assumption | on_new_objects_list ].
    + split; [ | assumption ].
      apply (old_unchanged_trans H0 H1).
Qed.

Lemma run_evaluation_session_frame base_trainer base_model datamodule n_runs
    verbose w :
  wp (run_evaluation_session base_trainer base_model datamodule n_runs verbose)
    w
    (fun evs w' _ =>
       old_unchanged (next_loc (heap w)) (heap w) (heap w') /\
       on_new_objects (next_loc (heap w)) evs).
Proof.
  unfold run_evaluation_session. wp_calls.
  pose proof (old_unchanged_refl (next_loc (heap w)) (heap w)) as H0.
  do 4 frame_step (next_loc (heap w)) (heap w);
    [ | split; [ assumption | on_new_objects_list ] ].
  apply wp_bind. eapply wp_weaken.
  { apply (@loop_frame (next_loc (heap w)) (heap w)); [ lia | eassumption ]. }
  cbv beta. intros evs w2 [[] | e] [H2 Hevs].
  - frame_step (next_loc (heap w)) (heap w);
      (split; [ assumption | ]);
      apply (on_new_objects_app (evs1 := [_]));
      [ on_new_objects_list | | on_new_objects_list | ];
      (apply on_new_objects_app; [ assumption | on_new_objects_list ]).
  - split; [ assumption | ].
    apply (on_new_objects_app (evs1 := [_]));
      [ on_new_objects_list | assumption ].
Qed.

(** ** The test set decides whether the test phase runs *)

Lemma wp_fit_test_set trainer model datamodule w
    (Q : list (event fw) -> World fw -> res unit -> Prop) :
  keeps_test_set fw ->
  (forall w' r,
     has_test (datamodules (heap w') datamodule)
     = has_test (datamodules (heap w) datamodule) ->
     Q [Ev (Fit trainer model datamodule) (outcome_of (fun _ => VNone) r)]
       w' r) ->
  wp (fit trainer model datamodule) w Q.
Proof.
  intros [Hfit _] HQ. apply wp_invoke. intros h' r E. apply HQ.
  specialize (Hfit (env (heap w)) (trainers (heap w) trainer)
                (models (heap w) model) (datamodules (heap w) datamodule)).
  destruct (trainer_fit _ _ _ _ _) as [[[[e ts] ms] ds] r'].
  injection E as <- <-. simpl. rewrite upd_same. exact Hfit.
Qed.

Lemma wp_validate_test_set trainer datamodule verbose ckpt w
    (Q : list (event fw) -> World fw -> res (Scores fw) -> Prop) :
  keeps_test_set fw ->
  (forall w' r,
     has_test (datamodules (heap w') datamodule)
     = has_test (datamodules (heap w) datamodule) ->
     Q [Ev (Validate trainer datamodule verbose ckpt)
          (outcome_of (@VScores fw) r)]
       w' r) ->
  wp (validate trainer datamodule verbose ckpt) w Q.
Proof.
  intros [_ Hvalidate] HQ. apply wp_invoke. intros h' r E. apply HQ.
  specialize (Hvalidate (env (heap w)) (trainers (heap w) trainer)
                (datamodules (heap w) datamodule) verbose ckpt).
  destruct (trainer_validate _ _ _ _ _ _) as [[[e ts] ds] r'].
  injection E as <- <-. simpl. rewrite upd_same. exact Hvalidate.
Qed.

(** ** [range] *)

Lemma length_range n_runs : length (range n_runs) = Z.to_nat n_runs.
Proof.
  unfold range. rewrite length_map, length_seq. reflexivity.
Qed.

Lemma range_nonpositive n_runs : (n_runs <= 0)%Z -> range n_runs = [].
Proof.
  intros H. unfold range. replace (Z.to_nat n_runs) with 0 by lia.
  reflexivity.
Qed.

Lemma nth_error_range n_runs k :
  k < Z.to_nat n_runs -> nth_error (range n_runs) k = Some (Z.of_nat k).
Proof.
  intros H. unfold range. rewrite nth_error_map.
  rewrite nth_error_seq. 
  destruct (Nat.ltb_spec k (Z.to_nat n_runs)); [ reflexivity | lia ].
Qed.

(** ** Sessions *)

Lemma session_trace_returns base_trainer base_model datamodule output_dir
    n_runs verbose evs :
  session_trace base_trainer base_model datamodule output_dir n_runs verbose
    (Ok tt) evs ->
  exists recorder runs,
    length runs = Z.to_nat n_runs /\
    evs = (NewSessionRecorder output_dir verbose ~> VRecorder recorder)
          :: recorded_runs base_trainer base_model datamodule (negb verbose)
               recorder (range n_runs) runs
          ++ [RecorderSave recorder ~> VNone].
Proof.
  intros H. inversion H as [ | | recorder evs' r Hloop ]; subst.
  destruct (loop_trace_returns Hloop) as (runs & Hlen & ->).
  exists recorder, runs. rewrite Hlen, length_range. auto.
Qed.

Lemma session_trace_run_starts base_trainer base_model datamodule output_dir
    n_runs verbose (r : res unit) evs :
  session_trace base_trainer base_model datamodule output_dir n_runs verbose
    r evs ->
  forall pre ev post,
    phase_of (ev_call ev) = PClone -> evs = pre ++ ev :: post ->
    exists recorder runs,
      length runs < Z.to_nat n_runs /\
      pre = (NewSessionRecorder output_dir verbose ~> VRecorder recorder)
            :: recorded_runs base_trainer base_model datamodule (negb verbose)
                 recorder (range n_runs) runs.
Proof.
  intros H pre ev post Hev E.
  destruct H as [ e | recorder e evs Hloop | recorder evs r Hloop ].
  - destruct pre as [| ev' pre]; injection E as E1 E2.
    + subst ev. discriminate.
    + destruct pre; discriminate.
  - destruct pre as [| ev' pre]; injection E as E1 E2.
    + subst ev. discriminate.
    + pose proof (loop_trace_run_starts Hloop) as Hstarts.
      destruct (Hstarts _ _ _ Hev E2) as (runs & Hlen & ->).
      rewrite length_range in Hlen. subst ev'. eauto.
  - destruct pre as [| ev' pre]; injection E as E1 E2.
    + subst ev. discriminate.
    + assert (Hsave :
        Forall (fun ev' => ~ phase_of (ev_call ev') = PClone)
          [Ev (RecorderSave recorder) (outcome_of (fun _ => @VNone fw) r)]).
      { constructor; [ discriminate | constructor ]. }
      destruct (@cut_before (fun ev' => phase_of (ev_call ev') = PClone)
                  _ _ _ _ _ Hsave Hev E2) as (post' & E' & _).
      pose proof (loop_trace_run_starts Hloop) as Hstarts.
      destruct (Hstarts _ _ _ Hev E') as (runs & Hlen & ->).
      rewrite length_range in Hlen. subst ev'. eauto.
Qed.

Lemma session_trace_records base_trainer base_model datamodule output_dir
    n_runs verbose (r : res unit) evs :
  session_trace base_trainer base_model datamodule output_dir n_runs verbose
    r evs ->
  forall pre ev post,
    phase_of (ev_call ev) = PRecord -> evs = pre ++ ev :: post ->
    exists pre' recorder run_index run,
      In run_index (range n_runs) /\
      pre = pre' ++ run_events base_trainer base_model datamodule
                      (Some run_index) (negb verbose) run /\
      ev_call ev = RecorderUpdate recorder (run_validation_scores run)
                     (run_test_scores run).
Proof.
  intros H pre ev post Hev E.
  destruct H as [ e | recorder e evs Hloop | recorder evs r Hloop ].
  - destruct pre as [| ev' pre]; injection E as E1 E2.
    + subst ev. discriminate.
    + destruct pre; discriminate.
  - destruct pre as [| ev' pre]; injection E as E1 E2.
    + subst ev. discriminate.
    + pose proof (loop_trace_records Hloop) as Hrecords.
      destruct (Hrecords _ _ _ Hev E2)
        as (pre' & run_index & run & Hin & -> & Hcall).
      exists (ev' :: pre'), recorder, run_index, run. auto.
  - destruct pre as [| ev' pre]; injection E as E1 E2.
    + subst ev. discriminate.
    + assert (Hsave :
        Forall (fun ev' => ~ phase_of (ev_call ev') = PRecord)
          [Ev (RecorderSave recorder) (outcome_of (fun _ => @VNone fw) r)]).
      { constructor; [ discriminate | constructor ]. }
      destruct (@cut_before (fun ev' => phase_of (ev_call ev') = PRecord)
                  _ _ _ _ _ Hsave Hev E2) as (post' & E' & _).
      pose proof (loop_trace_records Hloop) as Hrecords.
      destruct (Hrecords _ _ _ Hev E')
        as (pre' & run_index & run & Hin & -> & Hcall).
      exists (ev' :: pre'), recorder, run_index, run. auto.
Qed.

Lemma session_trace_no_runs base_trainer base_model datamodule output_dir
    n_runs verbose (r : res unit) evs :
  (n_runs <= 0)%Z ->
  session_trace base_trainer base_model datamodule output_dir n_runs verbose
    r evs ->
  (exists e,
     r = Raise e /\ evs = [NewSessionRecorder output_dir verbose ~>! e]) \/
  (exists recorder,
     evs = [NewSessionRecorder output_dir verbose ~> VRecorder recorder;
            Ev (RecorderSave recorder) (outcome_of (fun _ => VNone) r)]).
Proof.
  intros Hn H.
  destruct H as [ e | recorder e evs Hloop | recorder evs r Hloop ];
    try rewrite (range_nonpositive Hn) in Hloop.
  - left. eauto.
  - inversion Hloop.
  - inversion Hloop; subst. right. exists recorder. reflexivity.
Qed.

(** ** The claims *)



(** C3.  For [n_runs >= 1], the log of a session that returns is: the
    construction of the recorder; then, for each index 0, 1, ...,
    [n_runs - 1] in this order, the events of one complete run with that
    index as its run id followed by one [recorder.update] with the scores
    this run returned; then one [recorder.save], and nothing after it. *)
Theorem session_performs_n_runs base_trainer base_model datamodule n_runs
    verbose w :
  (1 <= n_runs)%Z ->
  (forall k, k < Z.to_nat n_runs ->
     nth_error (range n_runs) k = Some (Z.of_nat k)) /\
  wp (run_evaluation_session base_trainer base_model datamodule n_runs verbose)
    w
    (fun evs _ r =>
       r = Ok tt ->
       exists recorder runs,
         length runs = Z.to_nat n_runs /\
         evs = (NewSessionRecorder
                  (default_log_dir fw (trainers (heap w) base_trainer))
                  verbose ~> VRecorder recorder)
               :: recorded_runs base_trainer base_model datamodule
                    (negb verbose) recorder (range n_runs) runs
               ++ [RecorderSave recorder ~> VNone]).
Proof.
  intros Hn. split.
  - intros k Hk. apply nth_error_range, Hk.
  - eapply wp_weaken; [ apply run_evaluation_session_wp | ].
    cbv beta. intros evs w' r Htrace ->.
    apply (session_trace_returns Htrace).
Qed.

(** C4.  In every session the recorder is made with [verbose], it is the
    first call of the session, and every evaluation of every run is called
    with [not verbose]: of the session's report and the runs' reports
    exactly one is on. *)
Theorem session_verbosity_is_negated base_trainer base_model datamodule
    n_runs verbose w :
  wp (run_evaluation_session base_trainer base_model datamodule n_runs verbose)
    w
    (fun evs _ _ =>
       (exists o rest,
          evs = Ev (NewSessionRecorder
                      (default_log_dir fw (trainers (heap w) base_trainer))
                      verbose) o :: rest) /\
       verbosity verbose (negb verbose) evs /\
       xorb verbose (negb verbose) = true).
Proof.
  eapply wp_weaken; [ apply run_evaluation_session_wp | ].
  cbv beta. intros evs w' r Htrace. split; [ | split ].
  - destruct Htrace; eauto.
  - apply (verbosity_session Htrace).
  - destruct verbose; reflexivity.
Qed.

(** C5.  The phases of [fit_and_validate] are fit, validate and, when it is
    performed, test, in this order; those of a run are clone, configure,
    open the logger run, fit, validate, test when performed, close the
    logger run.  A call cut short by an exception has a beginning of that
    sequence.  Every call but the last has returned when the next is made.
    In a session, [recorder.update] is only called right after the events
    of a complete run, with the validation and test scores that run
    returned. *)
Theorem phases_in_order base_trainer base_model datamodule w :
  (forall trainer model verbose,
     wp (fit_and_validate trainer model datamodule verbose) w
       (fun evs _ r =>
          (exists (with_test : bool) rest,
             phases evs ++ rest
             = [PFit; PValidate] ++ (if with_test then [PTest] else [])) /\
          propagates r evs)) /\
  (forall run_id verbose,
     wp (run_evaluation base_trainer base_model datamodule run_id verbose) w
       (fun evs _ r =>
          (exists with_test rest,
             phases evs ++ rest = run_phases with_test /\
             (forall scores, r = Ok scores -> rest = [])) /\
          propagates r evs)) /\
  (forall n_runs verbose,
     wp (run_evaluation_session base_trainer base_model datamodule n_runs
           verbose) w
       (fun evs _ _ =>
          forall pre ev post,
            phase_of (ev_call ev) = PRecord -> evs = pre ++ ev :: post ->
            exists pre' recorder run_index run,
              In run_index (range n_runs) /\
              pre = pre' ++ run_events base_trainer base_model datamodule
                              (Some run_index) (negb verbose) run /\
              ev_call ev = RecorderUpdate recorder (run_validation_scores run)
                             (run_test_scores run))).
Proof.
  split; [ | split ]; intros.
  - eapply wp_weaken; [ apply fit_and_validate_wp | ].
    cbv beta. intros evs w' r Htrace. split.
    + apply (fit_and_validate_trace_phases Htrace).
    + apply (fit_and_validate_trace_propagates Htrace).
  - eapply wp_weaken; [ apply run_evaluation_wp | ].
    cbv beta. intros evs w' r Htrace. split.
    + apply (run_evaluation_trace_phases Htrace).
    + apply (run_evaluation_trace_propagates Htrace).
  - eapply wp_weaken; [ apply run_evaluation_session_wp | ].
    cbv beta. intros evs w' r Htrace.
    apply (session_trace_records Htrace).
Qed.

(** C6.  Each of the four functions raises if and only if a call it makes
    raises, and raises the same exception: when the function returns, every
    logged call returned; when it raises [e], the last logged call raised
    [e] and every call before it returned.  Nothing is caught, wrapped or
    translated. *)
Theorem exceptions_propagate base_trainer base_model datamodule w :
  (forall n_runs verbose,
     wp (run_evaluation_session base_trainer base_model datamodule n_runs
           verbose) w
       (fun evs _ r => propagates r evs)) /\
  (forall run_id verbose,
     wp (run_evaluation base_trainer base_model datamodule run_id verbose) w
       (fun evs _ r => propagates r evs)) /\
  (forall trainer model verbose,
     wp (fit_and_validate trainer model datamodule verbose) w
       (fun evs _ r => propagates r evs)) /\
  (forall return_predictions,
     wp (infer_model base_trainer base_model datamodule return_predictions) w
       (fun evs _ r => propagates r evs)).
Proof.
  split; [ | split; [ | split ] ]; intros.
  - eapply wp_weaken; [ apply run_evaluation_session_wp | ].
    cbv beta. intros evs w' r Htrace.
    apply (session_trace_propagates Htrace).
  - eapply wp_weaken; [ apply run_evaluation_wp | ].
    cbv beta. intros evs w' r Htrace.
    apply (run_evaluation_trace_propagates Htrace).
  - eapply wp_weaken; [ apply fit_and_validate_wp | ].
    cbv beta. intros evs w' r Htrace.
    apply (fit_and_validate_trace_propagates Htrace).
  - eapply wp_weaken; [ apply infer_model_wp | ].
    cbv beta. intros evs w' r Htrace.
    apply (infer_model_trace_propagates Htrace).
Qed.

(** C7.  The runs of a session follow one another: wherever a run begins in
    the log of a session (its [clone] is called), what the log holds before
    it is the construction of the recorder followed by complete, recorded
    runs, those of the indices 0, 1, ... before this one; each of them has
    returned and its scores have been given to [recorder.update]. *)
Theorem runs_are_sequential base_trainer base_model datamodule n_runs verbose
    w :
  wp (run_evaluation_session base_trainer base_model datamodule n_runs verbose)
    w
    (fun evs _ _ =>
       forall pre ev post,
         phase_of (ev_call ev) = PClone -> evs = pre ++ ev :: post ->
         exists recorder runs,
           length runs < Z.to_nat n_runs /\
           pre = (NewSessionRecorder
                    (default_log_dir fw (trainers (heap w) base_trainer))
                    verbose ~> VRecorder recorder)
                 :: recorded_runs base_trainer base_model datamodule
                      (negb verbose) recorder (range n_runs) runs).
Proof.
  eapply wp_weaken; [ apply run_evaluation_session_wp | ].
  cbv beta. intros evs w' r Htrace.
  apply (session_trace_run_starts Htrace).
Qed.

(** C8.  [infer_model] gives back what [trainer.predict] gives: its result
    is the result of the framework's [predict] on the states of the clones,
    which are those of the base objects, with [return_predictions] as it was
    passed, [True] or [False]; the log is the [clone] and the [predict]
    with this result. *)
Theorem infer_model_returns_predictions base_trainer base_model datamodule
    return_predictions w :
  wp (infer_model base_trainer base_model datamodule return_predictions) w
    (fun evs _ r =>
       r = snd (trainer_predict fw (env (heap w))
                  (trainers (heap w) base_trainer)
                  (models (heap w) base_model)
                  (datamodules (heap w) datamodule) return_predictions) /\
       exists trainer model,
         evs = [Clone base_trainer base_model ~> VObjects trainer model;
                Ev (Predict trainer model datamodule return_predictions)
                   (outcome_of (@VPreds fw) r)]).
Proof.
  unfold infer_model, clone, predict.
  apply wp_bind, wp_invoke. intros h1 r1 E1. injection E1 as <- <-.
  cbn [outcome_of]. apply wp_invoke. intros h2 r E2.
  cbn [heap trainers models datamodules env] in E2.
  rewrite !upd_same in E2.
  destruct (trainer_predict _ _ _ _ _ _) as [[[[e ts] ms] ds] r'].
  injection E2 as _ <-. split; [ reflexivity | ].
  exists (next_loc (heap w)), (S (next_loc (heap w))). reflexivity.
Qed.

(** C9.  In a run that returns, the logger run is opened on the cloned
    trainer with [run_id] before the fit begins, and closed on the same
    trainer with the same [run_id] after the evaluation, as the last call
    of the run; between the two lie the fit and the evaluations, all
    returned, and no other opening or closing. *)
Theorem logger_run_bracketed base_trainer base_model datamodule run_id
    verbose w :
  wp (run_evaluation base_trainer base_model datamodule run_id verbose) w
    (fun evs _ r =>
       forall scores, r = Ok scores ->
       exists trainer model body,
         evs = [Clone base_trainer base_model ~> VObjects trainer model;
                ConfigureModel model ~> VNone;
                InitLoggerRun trainer run_id ~> VNone]
               ++ body
               ++ [FinishLoggerRun trainer run_id ~> VNone] /\
         (exists rest, body = (Fit trainer model datamodule ~> VNone) :: rest)
         /\
         Forall (fun ev =>
                   returned ev /\
                   phase_of (ev_call ev) <> PInitLogger /\
                   phase_of (ev_call ev) <> PFinishLogger) body).
Proof.
  eapply wp_weaken; [ apply run_evaluation_wp | ].
  cbv beta. intros evs w' r Htrace scores ->.
  inversion Htrace as [ | | | | run Escores Eevs ]; subst.
  exists (run_trainer run), (run_model run),
    (fit_and_validate_events (run_trainer run) (run_model run) datamodule
       verbose (run_ckpt_validate run) (run_ckpt_test run)
       (run_validation_scores run) (run_test_scores run)).
  split; [ reflexivity | ]. split.
  - eexists. reflexivity.
  - unfold fit_and_validate_events, test_events.
    destruct (run_test_scores run); simpl;
      repeat (constructor;
              [ split; [ apply returned_returns | split; discriminate ] | ]);
      constructor.
Qed.

(** C10.  With [n_runs <= 0] a session makes no run: it constructs the
    recorder and, once the recorder is made, calls [recorder.save] on it,
    once; these are all the calls it makes, so nothing is cloned, fitted or
    evaluated and [recorder.update] is not called.  The session ends as
    [recorder.save] ends. *)
Theorem session_without_runs base_trainer base_model datamodule n_runs
    verbose w :
  (n_runs <= 0)%Z ->
  wp (run_evaluation_session base_trainer base_model datamodule n_runs verbose)
    w
    (fun evs _ r =>
       (exists e,
          r = Raise e /\
          evs = [NewSessionRecorder
                   (default_log_dir fw (trainers (heap w) base_trainer))
                   verbose ~>! e]) \/
       (exists recorder,
          evs = [NewSessionRecorder
                   (default_log_dir fw (trainers (heap w) base_trainer))
                   verbose ~> VRecorder recorder;
                 Ev (RecorderSave recorder)
                    (outcome_of (fun _ => VNone) r)])).
Proof.
  intros Hn. eapply wp_weaken; [ apply run_evaluation_session_wp | ].
  cbv beta. intros evs w' r Htrace.
  apply (session_trace_no_runs Hn Htrace).
Qed.

(** ** Further properties *)

(** *** The functions on the states of their objects *)

(** Take a framework call: name its parts and rewrite with them. *)
Ltac state_step :=
  lazymatch goal with
  | |- wp (bind _ _) _ _ => apply wp_bind
  | |- wp (ret _) _ _ => apply wp_ret
  | |- wp (read _) _ _ => apply wp_read
  | |- wp (invoke _ _ _) _ _ =>
      let H := fresh "Hstep" in
      apply wp_invoke; intros ? ? H;
      cbn [heap trainers models datamodules recorders env next_loc] in H;
      rewrite ?upd_same in H
  end.

Lemma fit_and_validate_on_states trainer model datamodule verbose w :
  wp (fit_and_validate trainer model datamodule verbose) w
    (fun _ w' r =>
       (env (heap w'), trainers (heap w') trainer, models (heap w') model,
        datamodules (heap w') datamodule, r)
       = fit_and_validate_states verbose (env (heap w))
           (trainers (heap w) trainer) (models (heap w) model)
           (datamodules (heap w) datamodule)).
Proof.
  unfold fit_and_validate, fit_and_validate_states. wp_calls.
  do 2 state_step.
  destruct (trainer_fit _ _ _ _ _) as [[[[e1 ts1] ms1] ds1] r1].
  injection Hstep as <- <-. destruct r1 as [[] | x]; cbn [outcome_of].
  - do 4 state_step.
    cbn [heap trainers models datamodules recorders env next_loc] in *.
    rewrite ?upd_same in *.
    destruct (trainer_validate _ _ _ _ _ _) as [[[e2 ts2] ds2] r2].
    injection Hstep as <- <-. destruct r2 as [validation_scores | x];
      cbn [outcome_of].
    + do 2 state_step.
      cbn [heap trainers models datamodules recorders env next_loc].
      rewrite ?upd_same.
      destruct (datasets_test fw ds2).
      * do 5 state_step.
        cbn [heap trainers models datamodules recorders env next_loc] in *.
        rewrite ?upd_same in *.
        destruct (trainer_test _ _ _ _ _ _) as [[[e3 ts3] ds3] r3].
        injection Hstep as <- <-. destruct r3 as [scores | x];
          cbn [outcome_of].
        -- do 2 state_step.
           cbn [heap trainers models datamodules recorders env next_loc].
           rewrite ?upd_same. reflexivity.
        -- cbn [heap trainers models datamodules recorders env next_loc].
           rewrite ?upd_same. reflexivity.
      * do 3 state_step.
        cbn [heap trainers models datamodules recorders env next_loc].
        rewrite ?upd_same. reflexivity.
    + cbn [heap trainers models datamodules recorders env next_loc].
      rewrite ?upd_same. reflexivity.
  - cbn [heap trainers models datamodules recorders env next_loc].
    rewrite ?upd_same. reflexivity.
Qed.

Lemma run_evaluation_on_states base_trainer base_model datamodule run_id
    verbose w :
  wp (run_evaluation base_trainer base_model datamodule run_id verbose) w
    (fun _ w' r =>
       (env (heap w'), datamodules (heap w') datamodule, r)
       = run_evaluation_states run_id verbose (env (heap w))
           (trainers (heap w) base_trainer) (models (heap w) base_model)
           (datamodules (heap w) datamodule)).
Proof.
  unfold run_evaluation, run_evaluation_states, clone. wp_calls.
  do 2 state_step. injection Hstep as <- <-. cbn [outcome_of].
  do 2 state_step.
  destruct (model_configure_model _ _ _) as [[e1 ms1] r1].
  injection Hstep as <- <-. destruct r1 as [[] | x]; cbn [outcome_of].
  - do 2 state_step.
    destruct (trainer_init_logger_run _ _ _ _) as [[e2 ts2] r2].
    injection Hstep as <- <-. destruct r2 as [[] | x]; cbn [outcome_of].
    + state_step. eapply wp_weaken; [ apply fit_and_validate_on_states | ].
      cbv beta. intros evs w3 r3.
      cbn [heap trainers models datamodules recorders env next_loc].
      rewrite ?upd_same.
      destruct (fit_and_validate_states _ _ _ _ _)
        as [[[[e3 ts3] ms3] ds3] r3'].
      intros E. injection E as E1 E2 E3 E4 <-.
      destruct r3 as [results | x].
      * do 2 state_step. rewrite E1, E2 in Hstep.
        destruct (trainer_finish_logger_run _ _ _ _) as [[e4 ts4] r4].
        injection Hstep as <- <-. destruct r4 as [[] | x]; cbn [outcome_of].
        -- state_step.
           cbn [heap trainers models datamodules recorders env next_loc].
           rewrite E4. reflexivity.
        -- cbn [heap trainers models datamodules recorders env next_loc].
           rewrite E4. reflexivity.
      * rewrite E1, E4. reflexivity.
    + cbn [heap trainers models datamodules recorders env next_loc].
      reflexivity.
  - cbn [heap trainers models datamodules recorders env next_loc].
    reflexivity.
Qed.

(** *** Which checkpoint is evaluated *)

Ltac checkpoint_events :=
  split;
  intros ? ? Hin; simpl in Hin;
  repeat match goal with
         | H : _ \/ _ |- _ => destruct H
         | H : False |- _ => destruct H
         | H : Ev _ _ = Ev _ _ |- _ => injection H as ? ?
         end;
  try discriminate;
  repeat match goal with
         | H : Validate _ _ _ _ = Validate _ _ _ _ |- _ => injection H as ?
         | H : Test _ _ _ _ = Test _ _ _ _ |- _ => injection H as ?
         end;
  subst; reflexivity.

(** X2.  [fit_and_validate] reads [trainer.checkpoint_type] when it makes
    the call: the checkpoint [trainer.validate] is given is the one of the
    trainer as the fit left it, and the checkpoint [trainer.test] is given
    is the one of the trainer as the validation left it. *)
Theorem checkpoint_read_when_evaluating trainer model datamodule verbose w :
  wp (fit_and_validate trainer model datamodule verbose) w
    (fun evs _ _ =>
       let '(e1, ts1, _, ds1, _) :=
         trainer_fit fw (env (heap w)) (trainers (heap w) trainer)
           (models (heap w) model) (datamodules (heap w) datamodule) in
       (forall ckpt o,
          In (Ev (Validate trainer datamodule verbose ckpt) o) evs ->
          ckpt = checkpoint_type fw ts1) /\
       let '(_, ts2, _, _) :=
         trainer_validate fw e1 ts1 ds1 verbose (checkpoint_type fw ts1) in
       (forall ckpt o,
          In (Ev (Test trainer datamodule verbose ckpt) o) evs ->
          ckpt = checkpoint_type fw ts2)).
Proof.
  unfold fit_and_validate. wp_calls.
  do 2 state_step.
  destruct (trainer_fit _ _ _ _ _) as [[[[e1 ts1] ms1] ds1] r1].
  injection Hstep as <- <-. destruct r1 as [[] | x]; cbn [outcome_of].
  - do 4 state_step.
    cbn [heap trainers models datamodules recorders env next_loc] in *.
    rewrite ?upd_same in *.
    destruct (trainer_validate _ _ _ _ _ _) as [[[e2 ts2] ds2] r2].
    injection Hstep as <- <-. destruct r2 as [validation_scores | x];
      cbn [outcome_of].
    + do 2 state_step.
      cbn [heap trainers models datamodules recorders env next_loc].
      rewrite ?upd_same.
      destruct (datasets_test fw ds2).
      * do 5 state_step.
        cbn [heap trainers models datamodules recorders env next_loc] in *.
        rewrite ?upd_same in *.
        destruct (trainer_test _ _ _ _ _ _) as [[[e3 ts3] ds3] r3].
        injection Hstep as <- <-. destruct r3 as [scores | x];
          cbn [outcome_of].
        -- do 2 state_step. checkpoint_events.
        -- checkpoint_events.
      * do 3 state_step. checkpoint_events.
    + checkpoint_events.
  - destruct (trainer_validate _ _ _ _ _ _) as [[[e2 ts2] ds2] r2].
    checkpoint_events.
Qed.

(** *** The datamodule is the caller's *)

Lemma on_datamodule_nil datamodule :
  on_datamodule datamodule ([] : list (event fw)).
Proof.
  intros ev [].
Qed.

Lemma on_datamodule_cons datamodule ev evs :
  (forall d, datamodule_used (ev_call ev) = Some d -> d = datamodule) ->
  on_datamodule datamodule evs -> on_datamodule datamodule (ev :: evs).
Proof.
  intros H1 H ev' [<- | Hin] d E.
  - apply H1, E.
  - apply (H _ Hin _ E).
Qed.

Lemma on_datamodule_app datamodule evs1 evs2 :
  on_datamodule datamodule evs1 -> on_datamodule datamodule evs2 ->
  on_datamodule datamodule (evs1 ++ evs2).
Proof.
  intros H1 H2 ev Hin d E. apply in_app_or in Hin. destruct Hin as [Hin | Hin].
  - apply (H1 _ Hin _ E).
  - apply (H2 _ Hin _ E).
Qed.

Ltac on_datamodule_list :=
  repeat first
    [ apply on_datamodule_nil
    | apply on_datamodule_cons; [ simpl; intros ? E; congruence | ] ].

Lemma on_datamodule_fit_and_validate_events trainer model datamodule verbose
    ckpt (ckpt' : Ckpt fw) validation_scores test_scores :
  on_datamodule datamodule
    (fit_and_validate_events trainer model datamodule verbose ckpt ckpt'
       validation_scores test_scores).
Proof.
  unfold fit_and_validate_events, test_events.
  destruct test_scores; simpl; on_datamodule_list.
Qed.

Lemma on_datamodule_fit_and_validate trainer model datamodule verbose
    (r : res (Scores fw * option (Scores fw))) evs :
  fit_and_validate_trace trainer model datamodule verbose r evs ->
  on_datamodule datamodule evs.
Proof.
  destruct 1; try apply on_datamodule_fit_and_validate_events;
    on_datamodule_list.
Qed.

Lemma on_datamodule_run_evaluation base_trainer base_model datamodule run_id
    verbose (r : res (Scores fw * option (Scores fw))) evs :
  run_evaluation_trace base_trainer base_model datamodule run_id verbose r evs ->
  on_datamodule datamodule evs.
Proof.
  destruct 1 as [ | | ? ? ? ? Hfv | | ]; unfold run_events, run_prologue.
  - on_datamodule_list.
  - on_datamodule_list.
  - apply on_datamodule_app; [ on_datamodule_list | ].
    apply (on_datamodule_fit_and_validate Hfv).
  - apply on_datamodule_app; [ on_datamodule_list | ].
    apply on_datamodule_app;
      [ apply on_datamodule_fit_and_validate_events | on_datamodule_list ].
  - apply on_datamodule_app; [ on_datamodule_list | ].
    apply on_datamodule_app;
      [ apply on_datamodule_fit_and_validate_events | on_datamodule_list ].
Qed.

Lemma on_datamodule_loop base_trainer base_model datamodule verbose recorder
    run_indices (r : res unit) evs :
  loop_trace base_trainer base_model datamodule verbose recorder run_indices
    r evs ->
  on_datamodule datamodule evs.
Proof.
  induction 1 as [ | ? ? ? ? Hrun | | ? ? ? ? ? _ IH ].
  - apply on_datamodule_nil.
  - apply (on_datamodule_run_evaluation Hrun).
  - apply on_datamodule_app; [ | on_datamodule_list ].
    eapply on_datamodule_run_evaluation. apply run_returns.
  - apply on_datamodule_app; [ | exact IH ].
    apply on_datamodule_app; [ | on_datamodule_list ].
    eapply on_datamodule_run_evaluation. apply run_returns.
Qed.

(** X4.  The datamodule is never cloned: in a session, a run and an
    inference, every [fit], [validate], [test] and [predict] is called with
    the very datamodule object the caller passed, in every run. *)
Theorem datamodule_is_shared base_trainer base_model datamodule w :
  (forall n_runs verbose,
     wp (run_evaluation_session base_trainer base_model datamodule n_runs
           verbose) w
       (fun evs _ _ => on_datamodule datamodule evs)) /\
  (forall run_id verbose,
     wp (run_evaluation base_trainer base_model datamodule run_id verbose) w
       (fun evs _ _ => on_datamodule datamodule evs)) /\
  (forall return_predictions,
     wp (infer_model base_trainer base_model datamodule return_predictions) w
       (fun evs _ _ => on_datamodule datamodule evs)).
Proof.
  split; [ | split ]; intros.
  - eapply wp_weaken; [ apply run_evaluation_session_wp | ].
    cbv beta. intros evs w' r Htrace.
    destruct Htrace as [ | ? ? ? Hloop | ? ? ? Hloop ].
    + on_datamodule_list.
    + apply on_datamodule_cons; [ simpl; congruence | ].
      apply (on_datamodule_loop Hloop).
    + apply on_datamodule_cons; [ simpl; congruence | ].
      apply on_datamodule_app;
        [ apply (on_datamodule_loop Hloop) | on_datamodule_list ].
  - eapply wp_weaken; [ apply run_evaluation_wp | ].
    cbv beta. intros evs w' r Htrace.
    apply (on_datamodule_run_evaluation Htrace).
  - eapply wp_weaken; [ apply infer_model_wp | ].
    cbv beta. intros evs w' r Htrace. destruct Htrace. on_datamodule_list.
Qed.

(** *** What a failure leaves undone *)

Lemma run_phases_incl with_test p :
  In p (run_phases with_test) -> In p (run_phases true).
Proof.
  destruct with_test; [ auto | ]. simpl. tauto.
Qed.

Lemma run_evaluation_trace_absent (p : phase) base_trainer base_model
    datamodule run_id verbose (r : res (Scores fw * option (Scores fw))) evs :
  ~ In p (run_phases true) ->
  run_evaluation_trace base_trainer base_model datamodule run_id verbose r evs ->
  Forall (fun ev => phase_of (ev_call ev) <> p) evs.
Proof.
  intros Hnot H.
  destruct (run_evaluation_trace_phases H) as (with_test & rest & E & _).
  eapply phases_prefix_absent; [ exact E | ].
  intros Hin. apply Hnot. eapply run_phases_incl, Hin.
Qed.

(** The loop of a session neither constructs a recorder nor saves. *)
Lemma loop_trace_absent (p : phase) base_trainer base_model datamodule verbose
    recorder run_indices (r : res unit) evs :
  p <> PRecord -> ~ In p (run_phases true) ->
  loop_trace base_trainer base_model datamodule verbose recorder run_indices
    r evs ->
  Forall (fun ev => phase_of (ev_call ev) <> p) evs.
Proof.
  intros Hrecord Hnot.
  induction 1 as [ | ? ? ? ? Hrun | | ? ? ? ? ? _ IH ].
  - constructor.
  - apply (run_evaluation_trace_absent Hnot Hrun).
  - apply Forall_app. split.
    + eapply run_evaluation_trace_absent; [ exact Hnot | apply run_returns ].
    + constructor; [ simpl; congruence | constructor ].
  - apply Forall_app. split; [ | exact IH ].
    apply Forall_app. split.
    + eapply run_evaluation_trace_absent; [ exact Hnot | apply run_returns ].
    + constructor; [ simpl; congruence | constructor ].
Qed.

(** X5.  A session that raises has saved nothing: either [recorder.save]
    was not called at all, or it is [recorder.save] itself that raised,
    after all [n_runs] runs were made and recorded.  The scores of the runs
    completed before a failure are not written. *)
Theorem failed_session_saves_nothing base_trainer base_model datamodule
    n_runs verbose w :
  wp (run_evaluation_session base_trainer base_model datamodule n_runs verbose)
    w
    (fun evs _ r =>
       forall e, r = Raise e ->
       Forall (fun ev => phase_of (ev_call ev) <> PSave) evs \/
       exists recorder runs,
         length runs = Z.to_nat n_runs /\
         evs = (NewSessionRecorder
                  (default_log_dir fw (trainers (heap w) base_trainer))
                  verbose ~> VRecorder recorder)
               :: recorded_runs base_trainer base_model datamodule
                    (negb verbose) recorder (range n_runs) runs
               ++ [RecorderSave recorder ~>! e]).
Proof.
  eapply wp_weaken; [ apply run_evaluation_session_wp | ].
  cbv beta. intros evs w' r Htrace e ->.
  inversion Htrace as [ e' | recorder e' evs' Hloop | recorder evs' r' Hloop ];
    subst.
  - left. constructor; [ discriminate | constructor ].
  - left. constructor; [ discriminate | ].
    apply (loop_trace_absent (p := PSave)) in Hloop; auto.
    + discriminate.
    + simpl. intuition discriminate.
  - right. destruct (loop_trace_returns Hloop) as (runs & Hlen & ->).
    exists recorder, runs. rewrite Hlen, length_range. auto.
Qed.

Lemma not_finish_fit_and_validate_events trainer model datamodule verbose
    ckpt (ckpt' : Ckpt fw) validation_scores test_scores :
  Forall (fun ev => phase_of (ev_call ev) <> PFinishLogger)
    (fit_and_validate_events trainer model datamodule verbose ckpt ckpt'
       validation_scores test_scores).
Proof.
  apply not_phase_if_absent. rewrite phases_fit_and_validate_events.
  destruct test_scores; simpl; intuition discriminate.
Qed.

(** A run that raises: the call that raised is the last, no
    [finish_logger_run] was made before it, and when it is the fit or an
    evaluation the logger run had been opened. *)
Lemma run_evaluation_trace_raises base_trainer base_model datamodule run_id
    verbose e evs :
  run_evaluation_trace base_trainer base_model datamodule run_id verbose
    (Raise e) evs ->
  exists evs0 c,
    evs = evs0 ++ [c ~>! e] /\
    Forall (fun ev => phase_of (ev_call ev) <> PFinishLogger) evs0 /\
    (In (phase_of c) [PFit; PValidate; PTest] ->
     exists trainer, In (InitLoggerRun trainer run_id ~> VNone) evs0).
Proof.
  intros H.
  inversion H as [ t m e' | t m e' | t m e' evs' Hfv
                 | t m ckpt ckpt' vs ts e' | ]; subst.
  - exists [Clone base_trainer base_model ~> VObjects t m],
      (ConfigureModel m).
    repeat split.
    + repeat constructor; discriminate.
    + simpl. intuition discriminate.
  - exists [Clone base_trainer base_model ~> VObjects t m;
            ConfigureModel m ~> VNone], (InitLoggerRun t run_id).
    repeat split.
    + repeat constructor; discriminate.
    + simpl. intuition discriminate.
  - inversion Hfv as [ e' | ckpt e' | ckpt vs ckpt' e' | ]; subst.
    + exists (run_prologue base_trainer base_model run_id t m),
        (Fit t m datamodule).
      repeat split.
      * repeat constructor; discriminate.
      * intros _. exists t. simpl. tauto.
    + exists (run_prologue base_trainer base_model run_id t m
              ++ [Fit t m datamodule ~> VNone]),
        (Validate t datamodule verbose ckpt).
      repeat split.
      * repeat constructor; discriminate.
      * intros _. exists t. simpl. tauto.
    + exists (run_prologue base_trainer base_model run_id t m
              ++ [Fit t m datamodule ~> VNone;
                  Validate t datamodule verbose ckpt ~> VScores vs]),
        (Test t datamodule verbose ckpt').
      repeat split.
      * repeat constructor; discriminate.
      * intros _. exists t. simpl. tauto.
  - exists (run_prologue base_trainer base_model run_id t m
            ++ fit_and_validate_events t m datamodule verbose ckpt ckpt'
                 vs ts),
      (FinishLoggerRun t run_id).
    repeat split.
    + apply Forall_app. split.
      * repeat constructor; discriminate.
      * apply not_finish_fit_and_validate_events.
    + simpl. intuition discriminate.
Qed.

(** X6.  A run that raises never completes [finish_logger_run]: the call
    that raised is the last call of the run and no [finish_logger_run] comes
    before it.  When the fit, the validation or the test raises, the logger
    run was opened with [run_id] and is left open. *)
Theorem failed_run_leaves_logger_open base_trainer base_model datamodule
    run_id verbose w :
  wp (run_evaluation base_trainer base_model datamodule run_id verbose) w
    (fun evs _ r =>
       forall e, r = Raise e ->
       exists evs0 c,
         evs = evs0 ++ [c ~>! e] /\
         Forall (fun ev => phase_of (ev_call ev) <> PFinishLogger) evs0 /\
         (In (phase_of c) [PFit; PValidate; PTest] ->
          exists trainer, In (InitLoggerRun trainer run_id ~> VNone) evs0)).
Proof.
  eapply wp_weaken; [ apply run_evaluation_wp | ].
  cbv beta. intros evs w' r Htrace e ->.
  apply (run_evaluation_trace_raises Htrace).
Qed.

(** *** How many runs *)

Lemma runs_begun_app evs1 evs2 :
  runs_begun (evs1 ++ evs2) = runs_begun evs1 + runs_begun evs2.
Proof.
  unfold runs_begun. rewrite filter_app, length_app. reflexivity.
Qed.

Lemma runs_begun_none evs :
  Forall (fun ev => phase_of (ev_call ev) <> PClone) evs -> runs_begun evs = 0.
Proof.
  induction 1 as [| ev evs Hev _ IH]; [ reflexivity | ].
  unfold runs_begun in *. simpl.
  destruct (ev_call ev); simpl in *; congruence.
Qed.

Lemma runs_begun_cons_other ev evs :
  phase_of (ev_call ev) <> PClone -> runs_begun (ev :: evs) = runs_begun evs.
Proof.
  intros Hev. unfold runs_begun. simpl.
  destruct (ev_call ev); simpl in *; congruence.
Qed.

Lemma runs_begun_record recorder validation_scores test_scores
    (o : outcome fw) :
  runs_begun [Ev (RecorderUpdate recorder validation_scores test_scores) o]
  = 0.
Proof.
  reflexivity.
Qed.

Lemma runs_begun_run_evaluation base_trainer base_model datamodule run_id
    verbose (r : res (Scores fw * option (Scores fw))) evs :
  run_evaluation_trace base_trainer base_model datamodule run_id verbose r evs ->
  runs_begun evs = 1.
Proof.
  intros H.
  destruct (run_evaluation_trace_shape H)
    as ((ev & rest & -> & Hev & Hrest) & _).
  change (ev :: rest) with ([ev] ++ rest).
  rewrite runs_begun_app, (runs_begun_none Hrest).
  unfold runs_begun. simpl. destruct (ev_call ev); simpl in *;
    try discriminate. reflexivity.
Qed.

Lemma runs_begun_loop base_trainer base_model datamodule verbose recorder
    run_indices (r : res unit) evs :
  loop_trace base_trainer base_model datamodule verbose recorder run_indices
    r evs ->
  runs_begun evs <= length run_indices /\
  (r = Ok tt -> runs_begun evs = length run_indices).
Proof.
  induction 1 as [ | ? ? ? ? Hrun | | ? ? ? ? ? _ [IHle IHeq] ].
  - auto.
  - rewrite (runs_begun_run_evaluation Hrun). simpl.
    split; [ lia | discriminate ].
  - rewrite runs_begun_app, runs_begun_record.
    erewrite runs_begun_run_evaluation by apply run_returns.
    simpl. split; [ lia | discriminate ].
  - unfold recorded_run. rewrite !runs_begun_app, runs_begun_record.
    erewrite runs_begun_run_evaluation by apply run_returns.
    simpl. split; [ lia | ]. intros E. rewrite (IHeq E). reflexivity.
Qed.

(** X7.  A session never begins more than [n_runs] runs, whatever happens,
    begins none when [n_runs <= 0], and has begun exactly [n_runs] when it
    returns. *)
Theorem session_begins_at_most_n_runs base_trainer base_model datamodule
    n_runs verbose w :
  wp (run_evaluation_session base_trainer base_model datamodule n_runs verbose)
    w
    (fun evs _ r =>
       runs_begun evs <= Z.to_nat n_runs /\
       (r = Ok tt -> runs_begun evs = Z.to_nat n_runs)).
Proof.
  eapply wp_weaken; [ apply run_evaluation_session_wp | ].
  cbv beta. intros evs w' r Htrace.
  destruct Htrace as [ | ? ? ? Hloop | ? ? ? Hloop ].
  - rewrite runs_begun_cons_other by discriminate.
    split; [ unfold runs_begun; simpl; lia | discriminate ].
  - destruct (runs_begun_loop Hloop) as [Hle _].
    rewrite length_range in Hle.
    rewrite runs_begun_cons_other by discriminate.
    split; [ exact Hle | discriminate ].
  - destruct (runs_begun_loop Hloop) as [_ Heq].
    rewrite length_range in Heq. specialize (Heq eq_refl).
    rewrite runs_begun_cons_other, runs_begun_app by discriminate.
    rewrite (@runs_begun_cons_other _ []) by discriminate.
    rewrite Heq. unfold runs_begun at 1 2. simpl.
    split; [ lia | intros _; lia ].
Qed.

(** *** A completed run is recorded *)

Lemma run_events_finish base_trainer base_model datamodule run_id verbose run :
  exists front,
    run_events base_trainer base_model datamodule run_id verbose run
    = front ++ [FinishLoggerRun (run_trainer run) run_id ~> VNone] /\
    Forall (fun ev => ~ (phase_of (ev_call ev) = PFinishLogger /\ returned ev))
      front.
Proof.
  exists (run_prologue base_trainer base_model run_id (run_trainer run)
            (run_model run)
          ++ fit_and_validate_events (run_trainer run) (run_model run)
               datamodule verbose (run_ckpt_validate run) (run_ckpt_test run)
               (run_validation_scores run) (run_test_scores run)).
  split.
  - unfold run_events. rewrite <- app_assoc. reflexivity.
  - apply Forall_app. split.
    + repeat constructor; intros [E _]; discriminate.
    + eapply Forall_impl; [ | apply not_finish_fit_and_validate_events ].
      cbv beta. intros ev Hev [E _]. contradiction.
Qed.

Lemma run_evaluation_trace_unfinished base_trainer base_model datamodule
    run_id verbose e evs :
  run_evaluation_trace base_trainer base_model datamodule run_id verbose
    (Raise e) evs ->
  Forall (fun ev => ~ (phase_of (ev_call ev) = PFinishLogger /\ returned ev))
    evs.
Proof.
  intros H.
  destruct (run_evaluation_trace_raises H) as (evs0 & c & -> & Hevs0 & _).
  apply Forall_app. split.
  - eapply Forall_impl; [ | exact Hevs0 ].
    cbv beta. intros ev Hev [E _]. contradiction.
  - constructor; [ | constructor ].
    intros [_ [v Hv]]. discriminate.
Qed.

(** Wherever a run has completed in the log of the loop, the next call is
    the [recorder.update]. *)
Lemma loop_trace_finished base_trainer base_model datamodule verbose recorder
    run_indices (r : res unit) evs :
  loop_trace base_trainer base_model datamodule verbose recorder run_indices
    r evs ->
  forall pre ev post,
    phase_of (ev_call ev) = PFinishLogger -> returned ev ->
    evs = pre ++ ev :: post ->
    exists validation_scores test_scores o post',
      post = Ev (RecorderUpdate recorder validation_scores test_scores) o
             :: post'.
Proof.
  induction 1 as [ | run_index rest e evs Hrun | run_index rest run e
                   | run_index rest run r evs _ IH ];
    intros pre ev post Hphase Hreturned E.
  - destruct pre; discriminate.
  - exfalso.
    exact (@cut_nowhere
             (fun ev' => phase_of (ev_call ev') = PFinishLogger /\ returned ev')
             _ _ _ _ (run_evaluation_trace_unfinished Hrun)
             (conj Hphase Hreturned) E).
  - destruct (run_events_finish base_trainer base_model datamodule
                (Some run_index) verbose run) as (front & Efront & Hfront).
    rewrite Efront, <- app_assoc in E.
    destruct (@cut_after
                (fun ev' => phase_of (ev_call ev') = PFinishLogger
                            /\ returned ev')
                _ _ _ _ _ Hfront (conj Hphase Hreturned) E)
      as (pre' & -> & E').
    destruct pre' as [| ev1 pre']; simpl in E'.
    + injection E' as _ <-. eauto.
    + injection E' as _ E'. destruct pre' as [| ev2 pre'].
      * injection E' as <- _. discriminate Hphase.
      * injection E' as _ E'. destruct pre'; discriminate.
  - destruct (run_events_finish base_trainer base_model datamodule
                (Some run_index) verbose run) as (front & Efront & Hfront).
    unfold recorded_run in E. rewrite Efront, <- !app_assoc in E.
    destruct (@cut_after
                (fun ev' => phase_of (ev_call ev') = PFinishLogger
                            /\ returned ev')
                _ _ _ _ _ Hfront (conj Hphase Hreturned) E)
      as (pre' & -> & E').
    destruct pre' as [| ev1 pre']; simpl in E'.
    + injection E' as _ <-. eauto.
    + injection E' as _ E'. destruct pre' as [| ev2 pre'].
      * injection E' as <- _. discriminate Hphase.
      * injection E' as _ E'. apply (IH _ _ _ Hphase Hreturned E').
Qed.

(** X9.  The scores of a completed run always reach the recorder: wherever
    a [finish_logger_run] has returned in the log of a session, the very
    next call is a [recorder.update]. *)
Theorem completed_run_is_recorded base_trainer base_model datamodule n_runs
    verbose w :
  wp (run_evaluation_session base_trainer base_model datamodule n_runs verbose)
    w
    (fun evs _ _ =>
       forall pre ev post,
         phase_of (ev_call ev) = PFinishLogger -> returned ev ->
         evs = pre ++ ev :: post ->
         exists recorder validation_scores test_scores o post',
           post = Ev (RecorderUpdate recorder validation_scores test_scores) o
                  :: post').
Proof.
  eapply wp_weaken; [ apply run_evaluation_session_wp | ].
  cbv beta. intros evs w' r Htrace pre ev post Hphase Hreturned E.
  destruct Htrace as [ e | recorder e evs Hloop | recorder evs r Hloop ].
  - destruct pre as [| ev' pre]; injection E as E1 E2.
    + subst ev. discriminate.
    + destruct pre; discriminate.
  - destruct pre as [| ev' pre]; injection E as E1 E2.
    + subst ev. discriminate.
    + pose proof (loop_trace_finished Hloop) as Hfinished.
      destruct (Hfinished _ _ _ Hphase Hreturned E2)
        as (vs & ts & o & post' & ->).
      exists recorder. eauto.
  - destruct pre as [| ev' pre]; injection E as E1 E2.
    + subst ev. discriminate.
    + assert (Hsave :
        Forall (fun ev' => ~ phase_of (ev_call ev') = PFinishLogger)
          [Ev (RecorderSave recorder) (outcome_of (fun _ => @VNone fw) r)]).
      { constructor; [ discriminate | constructor ]. }
      destruct (@cut_before (fun ev' => phase_of (ev_call ev') = PFinishLogger)
                  _ _ _ _ _ Hsave Hphase E2) as (post' & E' & ->).
      pose proof (loop_trace_finished Hloop) as Hfinished.
      destruct (Hfinished _ _ _ Hphase Hreturned E')
        as (vs & ts & o & post'' & ->).
      exists recorder, vs, ts, o. eexists. reflexivity.
Qed.

(** *** What a run returns *)

(** X1.  A run returns the scores the framework gave it: the log of a
    [run_evaluation] that returns [(validation_scores, test_scores)] is the
    log of a complete run in which [trainer.validate] returned
    [validation_scores] and [trainer.test], when it was called, returned
    the test scores; [test_scores] is [None] exactly when [trainer.test]
    was not called. *)
Theorem run_evaluation_returns_scores base_trainer base_model datamodule
    run_id verbose w :
  wp (run_evaluation base_trainer base_model datamodule run_id verbose) w
    (fun evs _ r =>
       forall validation_scores test_scores,
         r = Ok (validation_scores, test_scores) ->
         (exists trainer ckpt,
            In (Validate trainer datamodule verbose ckpt
                  ~> VScores validation_scores) evs) /\
         (forall scores,
            test_scores = Some scores <->
            exists trainer ckpt,
              In (Test trainer datamodule verbose ckpt ~> VScores scores) evs)
         /\
         (test_scores = None <->
          Forall (fun ev => phase_of (ev_call ev) <> PTest) evs)).
Proof.
  eapply wp_weaken; [ apply run_evaluation_wp | ].
  cbv beta. intros evs w' r Htrace vs ts ->.
  inversion Htrace as [ | | | | run Escores Eevs ]; subst.
  unfold run_events, run_prologue, fit_and_validate_events, test_events.
  destruct (run_test_scores run) as [s |]; simpl.
  - split; [ eauto 10 | ]. split.
    + intros scores. split.
      * intros E. injection E as <-. eauto 12.
      * intros (t & ckpt & Hin).
        repeat (destruct Hin as [Hin | Hin]; try discriminate Hin);
          [ | destruct Hin ].
        injection Hin as _ _ <-. reflexivity.
    + split; [ discriminate | ].
      intros H. rewrite Forall_forall in H.
      exfalso.
      apply (H (Test (run_trainer run) datamodule verbose (run_ckpt_test run)
                  ~> VScores s)); simpl; tauto.
  - split; [ eauto 10 | ]. split.
    + intros scores. split; [ discriminate | ].
      intros (t & ckpt & Hin).
      repeat (destruct Hin as [Hin | Hin]; try discriminate Hin).
      destruct Hin.
    + split; [ | reflexivity ].
      intros _. repeat constructor; discriminate.
Qed.

(** *** What a run depends on *)

(** X3.  A run depends on the store only through the ambient state and the
    states of the base trainer, the base model and the datamodule: two runs
    with the same [run_id] and [verbose], from stores that agree on these
    four, give the same result and leave the ambient state and the
    datamodule in the same state, wherever the objects lie and whatever
    else the stores hold, clones of earlier runs included. *)
Theorem run_depends_on_base_states base_trainer1 base_model1 datamodule1 w1
    base_trainer2 base_model2 datamodule2 w2 run_id verbose :
  env (heap w1) = env (heap w2) ->
  trainers (heap w1) base_trainer1 = trainers (heap w2) base_trainer2 ->
  models (heap w1) base_model1 = models (heap w2) base_model2 ->
  datamodules (heap w1) datamodule1 = datamodules (heap w2) datamodule2 ->
  snd (run_evaluation base_trainer1 base_model1 datamodule1 run_id verbose w1)
  = snd (run_evaluation base_trainer2 base_model2 datamodule2 run_id verbose
           w2) /\
  env (heap (fst (run_evaluation base_trainer1 base_model1 datamodule1 run_id
                    verbose w1)))
  = env (heap (fst (run_evaluation base_trainer2 base_model2 datamodule2
                      run_id verbose w2))) /\
  datamodules
    (heap (fst (run_evaluation base_trainer1 base_model1 datamodule1 run_id
                  verbose w1))) datamodule1
  = datamodules
      (heap (fst (run_evaluation base_trainer2 base_model2 datamodule2 run_id
                    verbose w2))) datamodule2.
Proof.
  intros Eenv Etrainer Emodel Edata.
  destruct (run_evaluation_on_states base_trainer1 base_model1 datamodule1
              run_id verbose w1) as (evs1 & _ & E1).
  destruct (run_evaluation_on_states base_trainer2 base_model2 datamodule2
              run_id verbose w2) as (evs2 & _ & E2).
  rewrite Eenv, Etrainer, Emodel, Edata, <- E2 in E1.
  injection E1 as -> -> ->. auto.
Qed.

(** *** [fit_and_validate] works in place *)

Ltac in_place_heap :=
  unfold in_place;
  cbn [heap trainers models datamodules recorders env next_loc];
  split; [ reflexivity | ];
  split; intros ? Hne; rewrite ?upd_other by exact Hne; reflexivity.

Lemma fit_and_validate_heap trainer model datamodule verbose w :
  wp (fit_and_validate trainer model datamodule verbose) w
    (fun _ w' _ => in_place trainer model (heap w) (heap w')).
Proof.
  unfold fit_and_validate. wp_calls.
  do 2 state_step.
  destruct (trainer_fit _ _ _ _ _) as [[[[e1 ts1] ms1] ds1] r1].
  injection Hstep as <- <-. destruct r1 as [[] | x]; cbn [outcome_of].
  - do 4 state_step.
    destruct (trainer_validate _ _ _ _ _ _) as [[[e2 ts2] ds2] r2].
    injection Hstep as <- <-. destruct r2 as [validation_scores | x];
      cbn [outcome_of].
    + do 2 state_step.
      destruct (datasets_test fw _).
      * do 5 state_step.
        destruct (trainer_test _ _ _ _ _ _) as [[[e3 ts3] ds3] r3].
        injection Hstep as <- <-. destruct r3 as [scores | x];
          cbn [outcome_of].
        -- do 2 state_step. in_place_heap.
        -- in_place_heap.
      * do 3 state_step. in_place_heap.
    + in_place_heap.
  - in_place_heap.
Qed.

(** X8.  [fit_and_validate] fits and evaluates in place: every call is made
    on the trainer and the model it was given, it clones nothing and
    allocates nothing, and no other trainer and no other model of the store
    changes state. *)
Theorem fit_and_validate_in_place trainer model datamodule verbose w :
  wp (fit_and_validate trainer model datamodule verbose) w
    (fun evs w' _ =>
       only_on trainer model evs /\
       runs_begun evs = 0 /\
       in_place trainer model (heap w) (heap w')).
Proof.
  eapply wp_weaken.
  - apply wp_and; [ apply fit_and_validate_heap | apply fit_and_validate_wp ].
  - cbv beta. intros evs w' r [Hheap Htrace]. split; [ | split ].
    + apply (only_on_fit_and_validate Htrace).
    + apply runs_begun_none.
      destruct (fit_and_validate_trace_phases Htrace)
        as (with_test & rest & E).
      eapply phases_prefix_absent; [ exact E | ].
      destruct with_test; simpl; intuition discriminate.
    + exact Hheap.
Qed.

(** *** Every run of a session starts from the base objects *)

Ltac same_recorders :=
  cbn [heap trainers models datamodules recorders env next_loc]; reflexivity.

Lemma fit_and_validate_recorders trainer model datamodule verbose w :
  wp (fit_and_validate trainer model datamodule verbose) w
    (fun _ w' _ => recorders (heap w') = recorders (heap w)).
Proof.
  unfold fit_and_validate. wp_calls.
  do 2 state_step.
  destruct (trainer_fit _ _ _ _ _) as [[[[e1 ts1] ms1] ds1] r1].
  injection Hstep as <- <-. destruct r1 as [[] | x]; cbn [outcome_of].
  - do 4 state_step.
    destruct (trainer_validate _ _ _ _ _ _) as [[[e2 ts2] ds2] r2].
    injection Hstep as <- <-. destruct r2 as [validation_scores | x];
      cbn [outcome_of].
    + do 2 state_step.
      destruct (datasets_test fw _).
      * do 5 state_step.
        destruct (trainer_test _ _ _ _ _ _) as [[[e3 ts3] ds3] r3].
        injection Hstep as <- <-. destruct r3 as [scores | x];
          cbn [outcome_of].
        -- do 2 state_step. same_recorders.
        -- same_recorders.
      * do 3 state_step. same_recorders.
    + same_recorders.
  - same_recorders.
Qed.

Lemma run_evaluation_recorders base_trainer base_model datamodule run_id
    verbose w :
  wp (run_evaluation base_trainer base_model datamodule run_id verbose) w
    (fun _ w' _ => recorders (heap w') = recorders (heap w)).
Proof.
  unfold run_evaluation, clone. wp_calls.
  do 2 state_step. injection Hstep as <- <-. cbn [outcome_of].
  do 2 state_step.
  destruct (model_configure_model _ _ _) as [[e1 ms1] r1].
  injection Hstep as <- <-. destruct r1 as [[] | x]; cbn [outcome_of].
  - do 2 state_step.
    destruct (trainer_init_logger_run _ _ _ _) as [[e2 ts2] r2].
    injection Hstep as <- <-. destruct r2 as [[] | x]; cbn [outcome_of].
    + state_step. eapply wp_weaken; [ apply fit_and_validate_recorders | ].
      cbv beta. intros evs w3 r3.
      cbn [heap trainers models datamodules recorders env next_loc].
      intros E. destruct r3 as [results | x].
      * do 2 state_step.
        destruct (trainer_finish_logger_run _ _ _ _) as [[e4 ts4] r4].
        injection Hstep as <- <-. destruct r4 as [[] | x]; cbn [outcome_of].
        -- state_step.
           cbn [heap trainers models datamodules recorders env next_loc].
           exact E.
        -- cbn [heap trainers models datamodules recorders env next_loc].
           exact E.
      * exact E.
    + same_recorders.
  - same_recorders.
Qed.

Lemma loop_on_states base_trainer base_model datamodule verbose recorder
    run_indices :
  forall w,
  base_trainer < next_loc (heap w) ->
  base_model < next_loc (heap w) ->
  wp (for_each run_indices (fun run_index =>
        scores <- run_evaluation base_trainer base_model datamodule
                    (Some run_index) verbose ;;
        let (validation_scores, test_scores) := scores in
        update recorder validation_scores test_scores)) w
    (fun _ w' r =>
       (env (heap w'), datamodules (heap w') datamodule,
        recorders (heap w') recorder, r)
       = runs_states run_indices verbose
           (trainers (heap w) base_trainer) (models (heap w) base_model)
           (env (heap w)) (datamodules (heap w) datamodule)
           (recorders (heap w) recorder)).
Proof.
  induction run_indices as [| run_index rest IH]; intros w Ht Hm;
    cbn [for_each runs_states].
  - apply wp_ret. reflexivity.
  - do 2 apply wp_bind. eapply wp_weaken.
    { apply wp_and; [ apply wp_and | ].
      - apply run_evaluation_on_states.
      - apply (@run_evaluation_frame (next_loc (heap w))). lia.
      - apply run_evaluation_recorders. }
    cbv beta. intros evs w1 r1 [[Estates [(Hnext & Htrainers & Hmodels) _]] Erec].
    destruct (run_evaluation_states _ _ _ _ _ _) as [[e1 ds1] r1'].
    injection Estates as Eenv Edata <-.
    destruct r1 as [[validation_scores test_scores] | x];
      [ | rewrite Eenv, Edata, Erec; reflexivity ].
    wp_calls. state_step. rewrite Eenv, Erec in Hstep.
    destruct (recorder_update _ _ _ _ _) as [[e2 rs2] r2].
    injection Hstep as <- <-. destruct r2 as [[] | x]; cbn [outcome_of].
    + eapply wp_weaken.
      { apply IH;
          cbn [heap trainers models datamodules recorders env next_loc]; lia. }
      cbv beta. intros evs' w3 r3.
      cbn [heap trainers models datamodules recorders env next_loc].
      rewrite upd_same, Htrainers, Hmodels, Edata by assumption.
      intros E. exact E.
    + cbn [heap trainers models datamodules recorders env next_loc].
      rewrite upd_same, Edata. reflexivity.
Qed.

(** X10.  In a session every run starts from the states the base trainer
    and the base model had when the session began: the result of the
    session, and the ambient state and the datamodule it leaves, are those
    of a loop in which each run is computed from these two states, and only
    the ambient state, the datamodule and the recorder pass from one run to
    the next. *)
Theorem session_runs_start_from_base base_trainer base_model datamodule n_runs
    verbose w :
  base_trainer < next_loc (heap w) ->
  base_model < next_loc (heap w) ->
  wp (run_evaluation_session base_trainer base_model datamodule n_runs verbose)
    w
    (fun _ w' r =>
       (env (heap w'), datamodules (heap w') datamodule, r)
       = run_evaluation_session_states n_runs verbose (env (heap w))
           (trainers (heap w) base_trainer) (models (heap w) base_model)
           (datamodules (heap w) datamodule)).
Proof.
  intros Ht Hm.
  unfold run_evaluation_session, run_evaluation_session_states. wp_calls.
  do 4 state_step.
  destruct (recorder_init _ _ _ _) as [e0 [rs | x]];
    injection Hstep as <- <-; cbn [outcome_of];
    [ | cbn [heap trainers models datamodules recorders env next_loc];
        reflexivity ].
  apply wp_bind. eapply wp_weaken.
  { apply loop_on_states;
      cbn [heap trainers models datamodules recorders env next_loc]; lia. }
  cbv beta. intros evs w1 r1.
  cbn [heap trainers models datamodules recorders env next_loc].
  rewrite upd_same.
  destruct (runs_states _ _ _ _ _ _ _) as [[[e1 ds1] rs1] r1'].
  intros E. injection E as Eenv Edata Erec <-.
  destruct r1 as [[] | x]; [ | rewrite Eenv, Edata; reflexivity ].
  state_step. rewrite Eenv, Erec in Hstep.
  destruct (recorder_save _ _ _) as [[e2 rs2] r2].
  injection Hstep as <- <-.
  cbn [heap trainers models datamodules recorders env next_loc].
  rewrite Edata. reflexivity.
Qed.

(** *** Run ids *)

Lemma run_ids_app evs1 evs2 : run_ids (evs1 ++ evs2) = run_ids evs1 ++ run_ids evs2.
Proof.
  apply flat_map_app.
Qed.

Lemma run_ids_fit_and_validate_events trainer model datamodule verbose ckpt
    (ckpt' : Ckpt fw) validation_scores test_scores :
  run_ids (fit_and_validate_events trainer model datamodule verbose ckpt ckpt'
             validation_scores test_scores) = [].
Proof.
  destruct test_scores; reflexivity.
Qed.

Lemma run_ids_run_events base_trainer base_model datamodule run_id verbose
    run :
  run_ids (run_events base_trainer base_model datamodule run_id verbose run)
  = [run_id].
Proof.
  unfold run_events. rewrite !run_ids_app, run_ids_fit_and_validate_events.
  reflexivity.
Qed.

(** A run opens at most one logger run, with its own run id. *)
Lemma run_ids_run_evaluation base_trainer base_model datamodule run_id verbose
    (r : res (Scores fw * option (Scores fw))) evs :
  run_evaluation_trace base_trainer base_model datamodule run_id verbose r evs ->
  run_ids evs = [] \/ run_ids evs = [run_id].
Proof.
  destruct 1 as [ | | ? ? ? ? Hfv | | ].
  - left. reflexivity.
  - right. reflexivity.
  - right. rewrite run_ids_app. destruct Hfv; try reflexivity.
    rewrite run_ids_fit_and_validate_events. reflexivity.
  - right. rewrite !run_ids_app, run_ids_fit_and_validate_events. reflexivity.
  - right. apply run_ids_run_events.
Qed.

Lemma run_ids_loop base_trainer base_model datamodule verbose recorder
    run_indices (r : res unit) evs :
  loop_trace base_trainer base_model datamodule verbose recorder run_indices
    r evs ->
  exists rest,
    map Some run_indices = run_ids evs ++ rest /\
    (r = Ok tt -> rest = []).
Proof.
  induction 1 as [ | run_index others e evs Hrun | run_index others run e
                   | run_index others run r evs _ (rest & E & Hrest) ].
  - exists []. auto.
  - destruct (run_ids_run_evaluation Hrun) as [-> | ->].
    + exists (map Some (run_index :: others)). split; [ reflexivity | ].
      discriminate.
    + exists (map Some others). split; [ reflexivity | discriminate ].
  - exists (map Some others). rewrite run_ids_app, run_ids_run_events.
    split; [ reflexivity | discriminate ].
  - exists rest. unfold recorded_run.
    rewrite !run_ids_app, run_ids_run_events. simpl. rewrite E.
    split; [ reflexivity | exact Hrest ].
Qed.

(** X11.  The runs of a session are numbered from 0 without a gap, whatever
    happens: the run ids the logger runs are opened with are, in order,
    0, 1, 2, ..., a beginning of [range(n_runs)], and all of it when the
    session returns. *)
Theorem run_ids_are_consecutive base_trainer base_model datamodule n_runs
    verbose w :
  wp (run_evaluation_session base_trainer base_model datamodule n_runs verbose)
    w
    (fun evs _ r =>
       exists rest,
         map Some (range n_runs) = run_ids evs ++ rest /\
         (r = Ok tt -> rest = [])).
Proof.
  eapply wp_weaken; [ apply run_evaluation_session_wp | ].
  cbv beta. intros evs w' r Htrace.
  destruct Htrace as [ | ? ? ? Hloop | ? ? ? Hloop ].
  - exists (map Some (range n_runs)). split; [ reflexivity | discriminate ].
  - destruct (run_ids_loop Hloop) as (rest & E & _).
    exists rest. split; [ exact E | discriminate ].
  - destruct (run_ids_loop Hloop) as (rest & E & Hrest).
    specialize (Hrest eq_refl). subst rest.
    exists []. split; [ | reflexivity ].
    change (map Some (range n_runs)
            = run_ids ([NewSessionRecorder
                          (default_log_dir fw (trainers (heap w) base_trainer))
                          verbose ~> VRecorder recorder] ++ evs
                       ++ [Ev (RecorderSave recorder)
                             (outcome_of (fun _ => VNone) r)]) ++ []).
    rewrite !run_ids_app, E. simpl. rewrite !app_nil_r. reflexivity.
Qed.

End Properties.

(** * The claims on the small framework

    Each lemma runs the module on [Toy.framework] from a store with the base
    trainer at 0, the base model at 1 and the datamodule at 2, and reads the
    matching claim off that run. *)

Unset Implicit Arguments.

Declare Scope toy_scope.
Notation "c ~> v" := (@Ev Toy.framework c (Returned v)) : toy_scope.
Notation "c ~>! e" := (@Ev Toy.framework c (Raised e)) : toy_scope.
Open Scope toy_scope.

(** A session of two runs with a test set, [verbose=True]. *)
Example toy_session_log :
  log (fst (run_evaluation_session 0 1 2 2 true (Toy.world 0 (Some tt))))
  = [NewSessionRecorder 5 true ~> VRecorder 3;
     Clone 0 1 ~> VObjects 4 5;
     ConfigureModel 5 ~> VNone;
     InitLoggerRun 4 (Some 0%Z) ~> VNone;
     Fit 4 5 2 ~> VNone;
     Validate 4 2 false 7 ~> VScores 70;
     Test 4 2 false 8 ~> VScores 160;
     FinishLoggerRun 4 (Some 0%Z) ~> VNone;
     RecorderUpdate 3 70 (Some 160) ~> VNone;
     Clone 0 1 ~> VObjects 6 7;
     ConfigureModel 7 ~> VNone;
     InitLoggerRun 6 (Some 1%Z) ~> VNone;
     Fit 6 7 2 ~> VNone;
     Validate 6 2 false 7 ~> VScores 70;
     Test 6 2 false 8 ~> VScores 160;
     FinishLoggerRun 6 (Some 1%Z) ~> VNone;
     RecorderUpdate 3 70 (Some 160) ~> VNone;
     RecorderSave 3 ~> VNone].
Proof.
  reflexivity.
Qed.

(** The same session on a model [trainer.fit] refuses: the exception of the
    first fit ends the session. *)
Example toy_session_raises :
  run_evaluation_session 0 1 2 2 true (Toy.world 100 (Some tt))
  = (fst (run_evaluation_session 0 1 2 2 true (Toy.world 100 (Some tt))),
     Raise 7) /\
  log (fst (run_evaluation_session 0 1 2 2 true (Toy.world 100 (Some tt))))
  = [NewSessionRecorder 5 true ~> VRecorder 3;
     Clone 0 1 ~> VObjects 4 5;
     ConfigureModel 5 ~> VNone;
     InitLoggerRun 4 (Some 0%Z) ~> VNone;
     Fit 4 5 2 ~>! 7].
Proof.
  split; reflexivity.
Qed.



(** C3 on the session of [toy_session_log], which returns. *)
Lemma session_performs_n_runs_witness :
  (1 <= 2)%Z /\
  exists recorder runs,
    length runs = 2 /\
    log (fst (run_evaluation_session 0 1 2 2 true (Toy.world 0 (Some tt))))
    = (NewSessionRecorder 5 true ~> VRecorder recorder)
      :: recorded_runs 0 1 2 false recorder [0; 1]%Z runs
      ++ [RecorderSave recorder ~> VNone].
Proof.
  assert (Hn : (1 <= 2)%Z) by lia.
  split; [ exact Hn | ].
  destruct (@session_performs_n_runs Toy.framework 0 1 2 2%Z true
              (Toy.world 0 (Some tt)) Hn) as (_ & evs & Hlog & Hruns).
  destruct (Hruns eq_refl) as (recorder & runs & Hlen & Hevs).
  exists recorder, runs. split; [ exact Hlen | ].
  rewrite Hlog, Hevs. reflexivity.
Defined.


(** C4 on the session of [toy_session_log]: the session is verbose, its
    runs are not. *)
Lemma session_verbosity_is_negated_witness :
  verbosity true false
    (log (fst (run_evaluation_session 0 1 2 2 true (Toy.world 0 (Some tt))))).
Proof.
  exact (proj1 (proj2 (wp_from_empty_log (w := Toy.world 0 (Some tt)) eq_refl
           (@session_verbosity_is_negated Toy.framework 0 1 2 2%Z true
              (Toy.world 0 (Some tt)))))).
Defined.


(** C5 on the session of [toy_session_log]: the second [recorder.update]
    follows a complete run and is given its scores. *)
Lemma phases_in_order_witness :
  exists pre' recorder run_index run,
    [NewSessionRecorder 5 true ~> VRecorder 3;
     Clone 0 1 ~> VObjects 4 5;
     ConfigureModel 5 ~> VNone;
     InitLoggerRun 4 (Some 0%Z) ~> VNone;
     Fit 4 5 2 ~> VNone;
     Validate 4 2 false 7 ~> VScores 70;
     Test 4 2 false 8 ~> VScores 160;
     FinishLoggerRun 4 (Some 0%Z) ~> VNone;
     RecorderUpdate 3 70 (Some 160) ~> VNone;
     Clone 0 1 ~> VObjects 6 7;
     ConfigureModel 7 ~> VNone;
     InitLoggerRun 6 (Some 1%Z) ~> VNone;
     Fit 6 7 2 ~> VNone;
     Validate 6 2 false 7 ~> VScores 70;
     Test 6 2 false 8 ~> VScores 160;
     FinishLoggerRun 6 (Some 1%Z) ~> VNone]
    = pre' ++ run_events 0 1 2 (Some run_index) false run /\
    RecorderUpdate (fw := Toy.framework) 3 70 (Some 160)
    = RecorderUpdate recorder (run_validation_scores run)
        (run_test_scores run).
Proof.
  pose proof (proj2 (proj2 (@phases_in_order Toy.framework 0 1 2
                              (Toy.world 0 (Some tt)))) 2%Z true) as Hsession.
  apply (wp_from_empty_log (w := Toy.world 0 (Some tt)) eq_refl) in Hsession.
  cbv beta in Hsession.
  specialize (Hsession
    [NewSessionRecorder 5 true ~> VRecorder 3;
     Clone 0 1 ~> VObjects 4 5;
     ConfigureModel 5 ~> VNone;
     InitLoggerRun 4 (Some 0%Z) ~> VNone;
     Fit 4 5 2 ~> VNone;
     Validate 4 2 false 7 ~> VScores 70;
     Test 4 2 false 8 ~> VScores 160;
     FinishLoggerRun 4 (Some 0%Z) ~> VNone;
     RecorderUpdate 3 70 (Some 160) ~> VNone;
     Clone 0 1 ~> VObjects 6 7;
     ConfigureModel 7 ~> VNone;
     InitLoggerRun 6 (Some 1%Z) ~> VNone;
     Fit 6 7 2 ~> VNone;
     Validate 6 2 false 7 ~> VScores 70;
     Test 6 2 false 8 ~> VScores 160;
     FinishLoggerRun 6 (Some 1%Z) ~> VNone]
    (RecorderUpdate 3 70 (Some 160) ~> VNone)
    [RecorderSave 3 ~> VNone] eq_refl toy_session_log).
  destruct Hsession
    as (pre' & recorder & run_index & run & _ & Hpre & Hcall).
  exists pre', recorder, run_index, run. split; [ exact Hpre | exact Hcall ].
Defined.

(** C6 on the session of [toy_session_raises]: the session raises the 7
    that [trainer.fit] raised. *)
Lemma exceptions_propagate_witness :
  exists evs0 c,
    log (fst (run_evaluation_session 0 1 2 2 true (Toy.world 100 (Some tt))))
    = evs0 ++ [c ~>! 7] /\
    Forall returned evs0.
Proof.
  pose proof (proj1 (@exceptions_propagate Toy.framework 0 1 2
                       (Toy.world 100 (Some tt))) 2%Z true) as Hsession.
  apply (wp_from_empty_log (w := Toy.world 100 (Some tt)) eq_refl)
    in Hsession.
  exact Hsession.
Defined.

(** C7 on the session of [toy_session_log]: before the second run begins,
    the log holds the recorder and one recorded run. *)
Lemma runs_are_sequential_witness :
  exists recorder runs,
    length runs < 2 /\
    [NewSessionRecorder 5 true ~> VRecorder 3;
     Clone 0 1 ~> VObjects 4 5;
     ConfigureModel 5 ~> VNone;
     InitLoggerRun 4 (Some 0%Z) ~> VNone;
     Fit 4 5 2 ~> VNone;
     Validate 4 2 false 7 ~> VScores 70;
     Test 4 2 false 8 ~> VScores 160;
     FinishLoggerRun 4 (Some 0%Z) ~> VNone;
     RecorderUpdate 3 70 (Some 160) ~> VNone]
    = (NewSessionRecorder 5 true ~> VRecorder recorder)
      :: recorded_runs 0 1 2 false recorder [0; 1]%Z runs.
Proof.
  pose proof (@runs_are_sequential Toy.framework 0 1 2 2%Z true
                (Toy.world 0 (Some tt))) as Hsession.
  apply (wp_from_empty_log (w := Toy.world 0 (Some tt)) eq_refl) in Hsession.
  cbv beta in Hsession.
  specialize (Hsession
    [NewSessionRecorder 5 true ~> VRecorder 3;
     Clone 0 1 ~> VObjects 4 5;
     ConfigureModel 5 ~> VNone;
     InitLoggerRun 4 (Some 0%Z) ~> VNone;
     Fit 4 5 2 ~> VNone;
     Validate 4 2 false 7 ~> VScores 70;
     Test 4 2 false 8 ~> VScores 160;
     FinishLoggerRun 4 (Some 0%Z) ~> VNone;
     RecorderUpdate 3 70 (Some 160) ~> VNone]
    (Clone 0 1 ~> VObjects 6 7)
    [ConfigureModel 7 ~> VNone;
     InitLoggerRun 6 (Some 1%Z) ~> VNone;
     Fit 6 7 2 ~> VNone;
     Validate 6 2 false 7 ~> VScores 70;
     Test 6 2 false 8 ~> VScores 160;
     FinishLoggerRun 6 (Some 1%Z) ~> VNone;
     RecorderUpdate 3 70 (Some 160) ~> VNone;
     RecorderSave 3 ~> VNone] eq_refl toy_session_log).
  exact Hsession.
Defined.

(** C8 on the base model of state 100, with and without
    [return_predictions]. *)
Lemma infer_model_returns_predictions_witness :
  snd (infer_model 0 1 2 true (Toy.world 100 None)) = Ok 100 /\
  snd (infer_model 0 1 2 false (Toy.world 100 None)) = Ok 0.
Proof.
  split.
  - exact (proj1 (wp_from_empty_log (w := Toy.world 100 None) eq_refl
                    (@infer_model_returns_predictions Toy.framework 0 1 2 true
                       (Toy.world 100 None)))).
  - exact (proj1 (wp_from_empty_log (w := Toy.world 100 None) eq_refl
                    (@infer_model_returns_predictions Toy.framework 0 1 2 false
                       (Toy.world 100 None)))).
Defined.

(** C9 on a run with run id 3, which returns. *)
Lemma logger_run_bracketed_witness :
  exists trainer model body,
    log (fst (run_evaluation 0 1 2 (Some 3%Z) true (Toy.world 0 None)))
    = [Clone 0 1 ~> VObjects trainer model;
       ConfigureModel model ~> VNone;
       InitLoggerRun trainer (Some 3%Z) ~> VNone]
      ++ body
      ++ [FinishLoggerRun trainer (Some 3%Z) ~> VNone].
Proof.
  pose proof (@logger_run_bracketed Toy.framework 0 1 2 (Some 3%Z) true
                (Toy.world 0 None)) as Hrun.
  apply (wp_from_empty_log (w := Toy.world 0 None) eq_refl) in Hrun.
  cbv beta in Hrun.
  destruct (Hrun (70, None) eq_refl) as (trainer & model & body & Hlog & _).
  exists trainer, model, body. exact Hlog.
Defined.

(** C10 on a session of [n_runs = -1]. *)
Lemma session_without_runs_witness :
  (-1 <= 0)%Z /\
  exists recorder,
    log (fst (run_evaluation_session 0 1 2 (-1) true (Toy.world 0 (Some tt))))
    = [NewSessionRecorder 5 true ~> VRecorder recorder;
       RecorderSave recorder ~> VNone].
Proof.
  assert (Hn : (-1 <= 0)%Z) by lia.
  split; [ exact Hn | ].
  pose proof (@session_without_runs Toy.framework 0 1 2 (-1)%Z true
                (Toy.world 0 (Some tt)) Hn) as Hsession.
  apply (wp_from_empty_log (w := Toy.world 0 (Some tt)) eq_refl) in Hsession.
  cbv beta in Hsession.
  destruct Hsession as [(e & Hraise & _) | (recorder & Hlog)].
  - discriminate Hraise.
  - exists recorder. exact Hlog.
Defined.


(** X1 on a run without a test set: it returns the 70 of its validation and
    no test scores. *)
Lemma run_evaluation_returns_scores_witness :
  (exists trainer ckpt,
     In (Validate trainer 2 true ckpt ~> VScores 70)
        (log (fst (run_evaluation 0 1 2 (Some 3%Z) true (Toy.world 0 None)))))
  /\
  Forall (fun ev => phase_of (ev_call ev) <> PTest)
    (log (fst (run_evaluation 0 1 2 (Some 3%Z) true (Toy.world 0 None)))).
Proof.
  pose proof (@run_evaluation_returns_scores Toy.framework 0 1 2 (Some 3%Z)
                true (Toy.world 0 None)) as Hrun.
  apply (wp_from_empty_log (w := Toy.world 0 None) eq_refl) in Hrun.
  cbv beta in Hrun.
  destruct (Hrun 70 None eq_refl) as (Hvalidate & _ & Hnone).
  split; [ exact Hvalidate | exact (proj1 Hnone eq_refl) ].
Defined.

(** X3 on two stores: the base objects at 0, 1, 2 of a store of three
    objects, and at 7, 8, 9 of a store of ten. *)
Lemma run_depends_on_base_states_witness :
  env (heap (Toy.world 0 (Some tt))) = env (heap (Toy.world_at 10 0 (Some tt)))
  /\
  trainers (heap (Toy.world 0 (Some tt))) 0
  = trainers (heap (Toy.world_at 10 0 (Some tt))) 7 /\
  models (heap (Toy.world 0 (Some tt))) 1
  = models (heap (Toy.world_at 10 0 (Some tt))) 8 /\
  datamodules (heap (Toy.world 0 (Some tt))) 2
  = datamodules (heap (Toy.world_at 10 0 (Some tt))) 9 /\
  snd (run_evaluation 0 1 2 (Some 0%Z) false (Toy.world 0 (Some tt)))
  = snd (run_evaluation 7 8 9 (Some 0%Z) false (Toy.world_at 10 0 (Some tt))).
Proof.
  assert (Eenv : env (heap (Toy.world 0 (Some tt)))
                 = env (heap (Toy.world_at 10 0 (Some tt))))
    by reflexivity.
  assert (Etrainer : trainers (heap (Toy.world 0 (Some tt))) 0
                     = trainers (heap (Toy.world_at 10 0 (Some tt))) 7)
    by reflexivity.
  assert (Emodel : models (heap (Toy.world 0 (Some tt))) 1
                   = models (heap (Toy.world_at 10 0 (Some tt))) 8)
    by reflexivity.
  assert (Edata : datamodules (heap (Toy.world 0 (Some tt))) 2
                  = datamodules (heap (Toy.world_at 10 0 (Some tt))) 9)
    by reflexivity.
  repeat (split; [ assumption | ]).
  exact (proj1 (@run_depends_on_base_states Toy.framework
                  0 1 2 (Toy.world 0 (Some tt))
                  7 8 9 (Toy.world_at 10 0 (Some tt))
                  (Some 0%Z) false Eenv Etrainer Emodel Edata)).
Defined.

(** X5 on the session of [toy_session_raises]: nothing is saved. *)
Lemma failed_session_saves_nothing_witness :
  Forall (fun ev => phase_of (ev_call ev) <> PSave)
    (log (fst (run_evaluation_session 0 1 2 2 true
                 (Toy.world 100 (Some tt))))).
Proof.
  pose proof (@failed_session_saves_nothing Toy.framework 0 1 2 2%Z true
                (Toy.world 100 (Some tt))) as Hsession.
  apply (wp_from_empty_log (w := Toy.world 100 (Some tt)) eq_refl)
    in Hsession.
  cbv beta in Hsession.
  destruct (Hsession 7 eq_refl) as [Hnone | (recorder & runs & Hlen & Hlog)].
  - exact Hnone.
  - exfalso.
    destruct runs as [| run1 [| run2 [| run3 runs]]]; try discriminate Hlen.
    rewrite (proj2 toy_session_raises) in Hlog.
    cbn in Hlog. discriminate Hlog.
Defined.

(** X6 on a run whose fit raises: the logger run was opened and is not
    closed. *)
Lemma failed_run_leaves_logger_open_witness :
  exists evs0 c,
    log (fst (run_evaluation 0 1 2 (Some 3%Z) true (Toy.world 100 None)))
    = evs0 ++ [c ~>! 7] /\
    Forall (fun ev => phase_of (ev_call ev) <> PFinishLogger) evs0 /\
    (In (phase_of c) [PFit; PValidate; PTest] ->
     exists trainer, In (InitLoggerRun trainer (Some 3%Z) ~> VNone) evs0).
Proof.
  pose proof (@failed_run_leaves_logger_open Toy.framework 0 1 2 (Some 3%Z)
                true (Toy.world 100 None)) as Hrun.
  apply (wp_from_empty_log (w := Toy.world 100 None) eq_refl) in Hrun.
  cbv beta in Hrun.
  exact (Hrun 7 eq_refl).
Defined.

(** X10 on the session of [toy_session_log]. *)
Lemma session_runs_start_from_base_witness :
  0 < next_loc (heap (Toy.world 0 (Some tt))) /\
  1 < next_loc (heap (Toy.world 0 (Some tt))) /\
  snd (run_evaluation_session 0 1 2 2 true (Toy.world 0 (Some tt)))
  = snd (run_evaluation_session_states (fw := Toy.framework) 2 true 0 5 0
           (Some tt)).
Proof.
  assert (Ht : 0 < next_loc (heap (Toy.world 0 (Some tt)))) by (simpl; lia).
  assert (Hm : 1 < next_loc (heap (Toy.world 0 (Some tt)))) by (simpl; lia).
  split; [ exact Ht | split; [ exact Hm | ] ].
  pose proof (@session_runs_start_from_base Toy.framework 0 1 2 2%Z true
                (Toy.world 0 (Some tt)) Ht Hm) as Hsession.
  apply (wp_from_empty_log (w := Toy.world 0 (Some tt)) eq_refl) in Hsession.
  cbv beta in Hsession.
  exact (f_equal snd Hsession).
Defined.
